(** * Dog Vision AI backend: model service and image preprocessing

    A shallow embedding of [backend/model_service.py] and
    [backend/image_processor.py], followed by the properties of the
    inference pipeline.

    Conventions of the embedding.
    - A Python method of [ModelService] is a computation in the monad
      [Py.M ModelService.t]: it receives the object's fields, returns either a
      value or a raised exception, and always returns the fields as they are
      at that point (attribute assignments made before an exception stay).
    - Exceptions are instances of subclasses of [Exception], recorded by
      class name and [str(e)]; [except Exception] catches all of them.
    - Model scores are rationals ([Q]): the order and the arithmetic of the
      finite floating-point values, without rounding and without NaN.
    - The file system, Keras and Pillow are outside the repository; what the
      code asks of them at a call is an explicit argument of the embedding. *)

From Stdlib Require Import List String Ascii Bool Arith ZArith QArith Lia.
From Stdlib Require Import Strings.Byte DecimalString Qround Lqa NArith.
Import ListNotations.

Local Open Scope string_scope.

(** ** Python results, exceptions and the state-and-exception monad *)

Module Py.

(** An exception object: its class and the text [str(e)] gives. *)
Record exn : Type := mkExn { exn_class : string; exn_msg : string }.

Definition RuntimeError (msg : string) : exn := mkExn "RuntimeError" msg.
Definition ValueError (msg : string) : exn := mkExn "ValueError" msg.
Definition IndexError (msg : string) : exn := mkExn "IndexError" msg.

Inductive result (A : Type) : Type :=
| Ok (a : A)
| Raise (e : exn).
Arguments Ok {A} a.
Arguments Raise {A} e.

(** A method body over an object state [S]. *)
Definition M (S A : Type) : Type := S -> result A * S.

Definition ret {S A} (a : A) : M S A := fun s => (Ok a, s).

Definition bind {S A B} (c : M S A) (k : A -> M S B) : M S B :=
  fun s =>
    match c s with
    | (Ok a, s') => k a s'
    | (Raise e, s') => (Raise e, s')
    end.

Definition raise {S A} (e : exn) : M S A := fun s => (Raise e, s).

(** [try: body  except Exception as e: handler e] *)
Definition try_except {S A} (body : M S A) (handler : exn -> M S A) : M S A :=
  fun s =>
    match body s with
    | (Ok a, s') => (Ok a, s')
    | (Raise e, s') => handler e s'
    end.

(** Reading an attribute, assigning the object state. *)
Definition gets {S A} (f : S -> A) : M S A := fun s => (Ok (f s), s).
Definition modify {S} (f : S -> S) : M S unit := fun s => (Ok tt, f s).

(** A call into code outside the object, which may raise. *)
Definition call {S A} (r : result A) : M S A := fun s => (r, s).

(** The pure fragment: expressions that may raise but touch no state. *)
Definition rbind {A B} (r : result A) (k : A -> result B) : result B :=
  match r with
  | Ok a => k a
  | Raise e => Raise e
  end.

(** [try: body  except Exception as e: handler e] in the pure fragment. *)
Definition rtry_except {A} (body : result A) (handler : exn -> result A)
  : result A :=
  match body with
  | Ok a => Ok a
  | Raise e => handler e
  end.

Definition is_ok {A} (r : result A) : bool :=
  match r with Ok _ => true | Raise _ => false end.

End Py.
Import Py.

Declare Scope py_scope.
Delimit Scope py_scope with py.
Notation "x <- c ;; k" := (bind c (fun x => k))
  (at level 61, c at next level, right associativity) : py_scope.
Notation "c ;;; k" := (bind c (fun _ => k))
  (at level 61, right associativity) : py_scope.

(** ** numpy and string helpers used by [predict] *)

Definition Qltb (a b : Q) : bool := negb (Qle_bool b a).

(** [np.argmax] scan: the running best index and value, the next index, the
    rest of the vector.  A later entry replaces the best one only when it is
    strictly greater, so ties go to the first occurrence. *)
Fixpoint argmax_from (best_i : nat) (best : Q) (i : nat) (l : list Q) : nat * Q :=
  match l with
  | [] => (best_i, best)
  | x :: r =>
      if Qltb best x then argmax_from i x (S i) r
      else argmax_from best_i best (S i) r
  end.

(** [np.argmax(v)]: raises [ValueError] on an empty vector. *)
Definition np_argmax (v : list Q) : result nat :=
  match v with
  | [] => Raise (ValueError "attempt to get argmax of an empty sequence")
  | x :: r => Ok (fst (argmax_from 0 x 1 r))
  end.

(** [str(n)] for a non-negative integer. *)
Definition str_of_nat (n : nat) : string := NilEmpty.string_of_uint (Nat.to_uint n).

(** [a[i]] on an array: raises [IndexError] out of bounds. *)
Definition getitem {A} (a : list A) (i : nat) : result A :=
  match nth_error a i with
  | Some x => Ok x
  | None =>
      Raise (IndexError
               ("index " ++ str_of_nat i
                ++ " is out of bounds for axis 0 with size "
                ++ str_of_nat (List.length a)))
  end.

(** ** [backend/model_service.py] *)

Module ModelService.

(** The image batch handed to the model: indexed batch, row, column,
    channel. *)
Definition Tensor : Type := list (list (list (list Q))).

(** A loaded Keras model, seen through [model.predict]: for a batch it
    either raises or returns one score vector per batch entry. *)
Definition Model : Type := Tensor -> result (list (list Q)).

(** What one call of [load_model] asks of the outside world:
    [os.path.exists] and [tf.keras.models.load_model]. *)
Record World : Type := mkWorld {
  path_exists : string -> bool;
  keras_load_model : string -> result Model
}.

(** The attributes of a [ModelService] object. *)
Record t : Type := mkService {
  model_path : string;
  model : option Model;
  dog_breeds : list string;
  is_loaded : bool
}.

Definition set_model (m : option Model) (self : t) : t :=
  mkService (model_path self) m (dog_breeds self) (is_loaded self).
Definition set_is_loaded (b : bool) (self : t) : t :=
  mkService (model_path self) (model self) (dog_breeds self) b.

Definition _get_dog_breeds : list string :=
  [ "affenpinscher"; "afghan_hound"; "african_hunting_dog"; "airedale";
    "american_staffordshire_terrier"; "appenzeller"; "australian_terrier";
    "basenji"; "basset"; "beagle"; "bedlington_terrier"; "bernese_mountain_dog";
    "black-and-tan_coonhound"; "blenheim_spaniel"; "bloodhound"; "bluetick";
    "border_collie"; "border_terrier"; "borzoi"; "boston_bull";
    "bouvier_des_flandres"; "boxer"; "brabancon_griffon"; "briard";
    "brittany_spaniel"; "bull_mastiff"; "cairn"; "cardigan";
    "chesapeake_bay_retriever"; "chihuahua"; "chow"; "clumber";
    "cocker_spaniel"; "collie"; "curly-coated_retriever"; "dandie_dinmont";
    "dhole"; "dingo"; "doberman"; "english_foxhound";
    "english_setter"; "english_springer"; "entlebucher"; "eskimo_dog";
    "flat-coated_retriever"; "french_bulldog"; "german_shepherd";
    "german_short-haired_pointer"; "giant_schnauzer"; "golden_retriever";
    "gordon_setter"; "great_dane"; "great_pyrenees"; "greater_swiss_mountain_dog";
    "groenendael"; "ibizan_hound"; "irish_setter"; "irish_terrier";
    "irish_water_spaniel"; "irish_wolfhound"; "italian_greyhound"; "japanese_spaniel";
    "keeshond"; "kelpie"; "kerry_blue_terrier"; "komondor";
    "kuvasz"; "labrador_retriever"; "lakeland_terrier"; "leonberg";
    "lhasa"; "malamute"; "malinois"; "maltese_dog";
    "mexican_hairless"; "miniature_pinscher"; "miniature_poodle"; "miniature_schnauzer";
    "newfoundland"; "norfolk_terrier"; "norwegian_elkhound"; "norwich_terrier";
    "old_english_sheepdog"; "otterhound"; "papillon"; "pekinese";
    "pembroke"; "pomeranian"; "pug"; "redbone";
    "rhodesian_ridgeback"; "rottweiler"; "saint_bernard"; "saluki";
    "samoyed"; "schipperke"; "scotch_terrier"; "scottish_deerhound";
    "sealyham_terrier"; "shetland_sheepdog"; "shih-tzu"; "siberian_husky";
    "silky_terrier"; "soft-coated_wheaten_terrier"; "staffordshire_bullterrier";
    "standard_poodle"; "standard_schnauzer"; "sussex_spaniel"; "tibetan_mastiff";
    "tibetan_terrier"; "toy_poodle"; "toy_terrier"; "vizsla";
    "walker_hound"; "weimaraner"; "welsh_springer_spaniel"; "west_highland_white_terrier";
    "whippet"; "wire-haired_fox_terrier"; "yorkshire_terrier"; "basenji";
    "bearded_collie"; "belgian_malinois"; "belgian_sheepdog"; "belgian_tervuren";
    "bernese_mountain_dog"; "bichon_frise"; "black_and_tan_coonhound"; "bloodhound";
    "blue_heeler"; "border_collie"; "borzoi"; "boston_terrier";
    "bouvier_des_flandres"; "boxer"; "briard"; "brittany";
    "bull_terrier"; "bulldog"; "bullmastiff"; "cairn_terrier" ].

(** [ModelService(model_path)] *)
Definition __init__ (model_path : string) : t :=
  mkService model_path None _get_dog_breeds false.

Local Open Scope py_scope.

(** [load_model(self) -> bool].  The [print] calls write to standard
    output only and are left out. *)
Definition load_model (w : World) : M t bool :=
  try_except
    (path <- gets model_path ;;
     if negb (path_exists w path) then ret false
     else
       m <- call (keras_load_model w path) ;;
       modify (set_model (Some m)) ;;;
       modify (set_is_loaded true) ;;;
       ret true)
    (fun e =>
       modify (set_is_loaded false) ;;;
       ret false).

Definition not_loaded_message : string :=
  "Model not loaded. Call load_model() first.".

(** [self.model.predict(x)]: a method call on the [model] attribute. *)
Definition model_predict (mdl : option Model) (x : Tensor)
  : result (list (list Q)) :=
  match mdl with
  | Some m => m x
  | None =>
      Raise (mkExn "AttributeError"
                   "'NoneType' object has no attribute 'predict'")
  end.

Definition is_None {A} (o : option A) : bool :=
  match o with None => true | Some _ => false end.

(** [predict(self, image_tensor) -> Tuple[str, float]] *)
Definition predict (image_tensor : Tensor) : M t (string * Q) :=
  loaded <- gets is_loaded ;;
  mdl <- gets model ;;
  if negb loaded || is_None mdl
  then raise (RuntimeError not_loaded_message)
  else
    try_except
      ((* Make prediction *)
       mdl <- gets model ;;
       predictions <- call (model_predict mdl image_tensor) ;;
       (* Get the predicted class index *)
       row <- call (getitem predictions 0) ;;
       predicted_class_index <- call (np_argmax row) ;;
       (* Get the confidence score *)
       confidence <- call (getitem row predicted_class_index) ;;
       (* Get the breed name *)
       breeds <- gets dog_breeds ;;
       let predicted_breed :=
         if Nat.ltb predicted_class_index (List.length breeds)
         then nth predicted_class_index breeds ""
         else "unknown_breed_" ++ str_of_nat predicted_class_index in
       ret (predicted_breed, confidence))
      (fun e => raise (RuntimeError ("Error during prediction: " ++ exn_msg e))).

(** The dictionary [get_health_status] returns, key by key. *)
Record HealthStatus : Type := mkHealth {
  h_model_loaded : bool;
  h_model_path : string;
  h_num_classes : nat;
  h_status : string
}.

(** [get_health_status(self) -> dict] *)
Definition get_health_status : M t HealthStatus :=
  loaded <- gets is_loaded ;;
  path <- gets model_path ;;
  breeds <- gets dog_breeds ;;
  ret (mkHealth loaded path (List.length breeds)
         (if loaded then "healthy" else "model_not_loaded")).

(** *** Runs of the service *)

(** An operation a caller performs on the service, with what the outside
    world answers during it. *)
Inductive op : Type :=
| OpLoad (w : World)
| OpPredict (image_tensor : Tensor)
| OpHealth.

(** The state after one operation (the caller discards or handles the
    outcome). *)
Definition step (o : op) (self : t) : t :=
  match o with
  | OpLoad w => snd (load_model w self)
  | OpPredict x => snd (predict x self)
  | OpHealth => snd (get_health_status self)
  end.

Fixpoint run (ops : list op) (self : t) : t :=
  match ops with
  | [] => self
  | o :: rest => run rest (step o self)
  end.

(** How one [load_model] call fails, read off the world it runs in. *)
Definition file_missing (w : World) (self : t) : bool :=
  negb (path_exists w (model_path self)).

Definition deserialization_raises (w : World) (self : t) : bool :=
  path_exists w (model_path self)
  && negb (is_ok (keras_load_model w (model_path self))).

Definition op_deserialization_raises (self : t) (o : op) : bool :=
  match o with
  | OpLoad w => deserialization_raises w self
  | _ => false
  end.

(** *** Notions used to state the properties *)

(** The failure [predict] signals when the service is not ready. *)
Definition NotLoadedError : exn := RuntimeError not_loaded_message.

(** The failure [predict] signals when its [try] block raised [cause]. *)
Definition PredictionError (cause : exn) : exn :=
  RuntimeError ("Error during prediction: " ++ exn_msg cause).

(** What the [try] block of [predict] evaluates to for the model [m] and the
    vocabulary [breeds]: a label and a confidence, or the exception some
    step raised. *)
Definition predict_body (m : Model) (breeds : list string) (image_tensor : Tensor)
  : result (string * Q) :=
  rbind (m image_tensor) (fun predictions =>
  rbind (getitem predictions 0) (fun row =>
  rbind (np_argmax row) (fun predicted_class_index =>
  rbind (getitem row predicted_class_index) (fun confidence =>
  Ok (if Nat.ltb predicted_class_index (List.length breeds)
      then nth predicted_class_index breeds ""
      else "unknown_breed_" ++ str_of_nat predicted_class_index,
      confidence))))).

(** [i] is the argmax index of [v] and [m] its maximum: [m] sits at [i],
    nothing in [v] is greater, and everything before [i] is smaller. *)
Definition is_argmax (v : list Q) (i : nat) (m : Q) : Prop :=
  nth_error v i = Some m
  /\ Forall (fun x => x <= m) v
  /\ (forall k y, (k < i)%nat -> nth_error v k = Some y -> y < m).

(** [sub] occurs in [s]. *)
Definition contains (sub s : string) : Prop :=
  exists pre post, s = pre ++ sub ++ post.

(** No entry of the vocabulary has the shape of a placeholder label. *)
Definition no_placeholder (breeds : list string) : bool :=
  forallb (fun b => negb (String.prefix "unknown_breed_" b)) breeds.

(** Stub models and worlds for running the service. *)
Definition stub_model (out : list (list Q)) : Model := fun _ => Ok out.
Definition failing_model (e : exn) : Model := fun _ => Raise e.

Definition world_ok (m : Model) : World :=
  mkWorld (fun _ => true) (fun _ => Ok m).
Definition world_missing : World :=
  mkWorld (fun _ => false) (fun _ => Raise (mkExn "OSError" "No file or directory found")).
Definition world_corrupt : World :=
  mkWorld (fun _ => true) (fun _ => Raise (mkExn "ValueError" "File format not supported")).

(** The score vector of length [n] that is 1 at [i] and 0 elsewhere. *)
Definition one_hot (n i : nat) : list Q :=
  map (fun k => if (k =? i)%nat then 1 else 0) (seq 0 n).

End ModelService.

(** ** [backend/image_processor.py] *)

Module ImageProcessor.

(** Image size constant (from notebook) *)
Definition IMG_SIZE : nat := 224.

(** *** Pillow images *)

(** The image modes covered: three-band colour, grey, colour with alpha,
    palette. *)
Inductive Mode : Type := RGB | L | RGBA | P.

Definition mode_eqb (a b : Mode) : bool :=
  match a, b with
  | RGB, RGB | L, L | RGBA, RGBA | P, P => true
  | _, _ => false
  end.

(** One stored pixel of an image of the given mode; every band is one
    byte.  A palette image stores the colour index. *)
Definition pixel (m : Mode) : Type :=
  match m with
  | RGB => (byte * byte * byte)%type
  | L => byte
  | RGBA => (byte * byte * byte * byte)%type
  | P => byte
  end.

(** An opened image: the header fields are known at once, the pixel data
    is decoded by the first operation that needs it ([im_load]) and that
    decoding may raise (truncated or corrupt data).  [im_palette] is the
    256-entry colour table of a palette image. *)
Record Image : Type := mkImage {
  im_mode : Mode;
  im_width : nat;
  im_height : nat;
  im_palette : byte -> byte * byte * byte;
  im_load : result (nat -> nat -> pixel im_mode)
}.

(** What the module asks of Pillow: [Image.open(io.BytesIO(b))], which
    identifies the container and parses the header, and [image.verify()]. *)
Record Pillow : Type := mkPillow {
  Image_open : list byte -> result Image;
  Image_verify : Image -> result unit
}.

(** Pillow's conversion of one pixel to RGB: grey is replicated, alpha is
    dropped, a palette index is looked up. *)
Definition to_rgb (m : Mode) (palette : byte -> byte * byte * byte)
  : pixel m -> byte * byte * byte :=
  match m with
  | RGB => fun p => p
  | L => fun l => (l, l, l)
  | RGBA => fun p => let '(r, g, b, _) := p in (r, g, b)
  | P => fun i => palette i
  end.

(** [image.convert('RGB')]: same size, mode RGB; decodes the pixel data. *)
Definition convert_RGB (image : Image) : result Image :=
  rbind (im_load image) (fun px =>
  Ok (mkImage RGB (im_width image) (im_height image) (im_palette image)
        (Ok (fun x y => to_rgb (im_mode image) (im_palette image) (px x y))))).

(** The bands of one pixel, as numpy lays them out on the last axis. *)
Definition bands (m : Mode) : pixel m -> list byte :=
  match m with
  | RGB => fun p => let '(r, g, b) := p in [r; g; b]
  | L => fun l => [l]
  | RGBA => fun p => let '(r, g, b, a) := p in [r; g; b; a]
  | P => fun i => [i]
  end.

(** [np.array(image)]: a uint8 array indexed row, column, band.  (For the
    one-band modes numpy has no band axis; [process_image_from_bytes] only
    reaches this call with an RGB image.) *)
Definition np_array (image : Image) : result (list (list (list N))) :=
  rbind (im_load image) (fun px =>
  Ok (map (fun y =>
        map (fun x => map Byte.to_N (bands (im_mode image) (px x y)))
            (seq 0 (im_width image)))
        (seq 0 (im_height image)))).

(** *** TensorFlow image operations *)

(** A float image tensor indexed row, column, channel. *)
Definition Tensor3 : Type := list (list (list Q)).

(** [tf.image.convert_image_dtype(t, tf.float32)] on a uint8 tensor:
    every value is multiplied by [1 / 255]. *)
Definition convert_image_dtype (t : list (list (list N))) : Tensor3 :=
  map (map (map (fun n => inject_Z (Z.of_N n) * (1 # 255)))) t.

Definition at3 (t : Tensor3) (y x c : nat) : Q :=
  nth c (nth x (nth y t []) []) 0.

(** The source coordinate of output index [i] with half-pixel centres:
    [(i + 0.5) * (in_size / out_size) - 0.5]. *)
Definition scaler (i in_size out_size : nat) : Q :=
  (inject_Z (Z.of_nat i) + (1 # 2))
  * (inject_Z (Z.of_nat in_size) / inject_Z (Z.of_nat out_size))
  - (1 # 2).

(** The two source indices and the weight of output index [i]. *)
Record CachedInterpolation : Type := mkInterp {
  lower : nat;
  upper : nat;
  lerp : Q
}.

Definition compute_interpolation_weights (i in_size out_size : nat)
  : CachedInterpolation :=
  let inp := scaler i in_size out_size in
  let in_f := Qfloor inp in
  mkInterp (Z.to_nat (Z.max in_f 0))
           (Z.to_nat (Z.min (Qceiling inp) (Z.of_nat in_size - 1)))
           (inp - inject_Z in_f).

Definition compute_lerp (top_left top_right bottom_left bottom_right
                         x_lerp y_lerp : Q) : Q :=
  let top := top_left + (top_right - top_left) * x_lerp in
  let bottom := bottom_left + (bottom_right - bottom_left) * x_lerp in
  top + (bottom - top) * y_lerp.

Definition InvalidArgumentError (msg : string) : exn :=
  mkExn "InvalidArgumentError" msg.

(** [tf.image.resize(t, size=[out_h, out_w])] with the default bilinear
    method: no cropping, no padding; an empty image is refused. *)
Definition tf_image_resize (t : Tensor3) (out_h out_w : nat) : result Tensor3 :=
  let in_h := List.length t in
  let in_w := List.length (hd [] t) in
  let channels := List.length (hd [] (hd [] t)) in
  if (in_h =? 0)%nat || (in_w =? 0)%nat
  then Raise (InvalidArgumentError "input image must be of non-zero size")
  else
    Ok (map (fun y =>
          let ys := compute_interpolation_weights y in_h out_h in
          map (fun x =>
            let xs := compute_interpolation_weights x in_w out_w in
            map (fun c =>
              compute_lerp (at3 t (lower ys) (lower xs) c)
                           (at3 t (lower ys) (upper xs) c)
                           (at3 t (upper ys) (lower xs) c)
                           (at3 t (upper ys) (upper xs) c)
                           (lerp xs) (lerp ys))
              (seq 0 channels))
            (seq 0 out_w))
          (seq 0 out_h)).

(** *** The module's functions *)

(** [process_image_from_bytes(image_bytes)].  [tf.constant(image_array)]
    wraps the array as it is, so [convert_image_dtype] is applied to the
    array directly. *)
Definition process_image_from_bytes (pil : Pillow) (image_bytes : list byte)
  : result Tensor3 :=
  rbind (Image_open pil image_bytes) (fun image =>
  rbind (if negb (mode_eqb (im_mode image) RGB)
         then convert_RGB image else Ok image) (fun image =>
  rbind (np_array image) (fun image_array =>
  let image_tensor := convert_image_dtype image_array in
  tf_image_resize image_tensor IMG_SIZE IMG_SIZE))).

(** [prepare_image_for_prediction(image_tensor)]:
    [tf.expand_dims(image_tensor, axis=0)] *)
Definition prepare_image_for_prediction (image_tensor : Tensor3)
  : ModelService.Tensor :=
  [image_tensor].

(** [validate_image_format(image_bytes)] *)
Definition validate_image_format (pil : Pillow) (image_bytes : list byte)
  : result bool :=
  rtry_except
    (rbind (Image_open pil image_bytes) (fun image =>
     rbind (Image_verify pil image) (fun _ =>
     Ok true)))
    (fun _ => Ok false).

(** *** Shape and range of a tensor *)

Definition has_shape (h w c : nat) (t : Tensor3) : Prop :=
  List.length t = h
  /\ Forall (fun row =>
              List.length row = w
              /\ Forall (fun px => List.length px = c) row) t.

Definition unit_range (v : Q) : Prop := 0 <= v /\ v <= 1.

Definition in_unit_range (t : Tensor3) : Prop :=
  Forall (Forall (Forall unit_range)) t.

(** The array [process_image_from_bytes] hands to TensorFlow: the pixels of
    the image in RGB, whatever the mode it was opened in. *)
Definition rgb_array (image : Image) (px : nat -> nat -> pixel (im_mode image))
  : list (list (list N)) :=
  map (fun y =>
         map (fun x =>
                map Byte.to_N
                    (bands RGB (to_rgb (im_mode image) (im_palette image) (px x y))))
             (seq 0 (im_width image)))
      (seq 0 (im_height image)).

(** A small stand-in for Pillow, for running the functions: a byte
    sequence that starts with the byte [P] is a grey image one pixel high
    whose pixels are the bytes after it; anything else is not identified.
    [verify] accepts what was opened. *)
Definition toy_open (b : list byte) : result Image :=
  match b with
  | x50 :: (_ :: _) as data =>
      Ok (mkImage L (List.length data) 1 (fun i => (i, i, i))
            (Ok (fun x _ => nth x data x00)))
  | _ => Raise (mkExn "UnidentifiedImageError" "cannot identify image file")
  end.

Definition toy_pillow : Pillow := mkPillow toy_open (fun _ => Ok tt).

End ImageProcessor.

(** ** [backend/app.py] *)

Module App.

Import ModelService ImageProcessor.

(** Model file path (relative to the backend directory) *)
Definition MODEL_PATH : string :=
  "../20250421-07101745219413-10k-images-mobilenetv2-Adam.keras".

(** Supported image formats: a set, so only membership is fixed. *)
Definition SUPPORTED_FORMATS : list string :=
  ["image/jpeg"; "image/jpg"; "image/png"].

(** Maximum file size (10MB) *)
Definition MAX_FILE_SIZE : N := 10 * 1024 * 1024.

(** A JSON value of a response body. *)
Inductive value : Type :=
| VBool (b : bool)
| VStr (s : string)
| VInt (n : nat)
| VFloat (q : Q).

(** A Python [dict] with string keys, in insertion order. *)
Definition dict : Type := list (string * value).

Fixpoint dict_get (d : dict) (k : string) : option value :=
  match d with
  | [] => None
  | (k', v) :: rest => if String.eqb k' k then Some v else dict_get rest k
  end.

(** [d[k] = v]: an existing key keeps its place and takes the new value, a
    new key goes to the end. *)
Fixpoint dict_set (d : dict) (k : string) (v : value) : dict :=
  match d with
  | [] => [(k, v)]
  | (k', v') :: rest =>
      if String.eqb k' k then (k', v) :: rest
      else (k', v') :: dict_set rest k v
  end.

(** The items of a dict display [{k1: v1, ..., **d, ...}], set from left to
    right on top of [acc]. *)
Definition dict_update (acc : dict) (items : list (string * value)) : dict :=
  fold_left (fun d kv => dict_set d (fst kv) (snd kv)) items acc.

(** The dictionary [get_health_status] builds, as a [dict]. *)
Definition health_status_dict (h : HealthStatus) : dict :=
  dict_update []
    [("model_loaded", VBool (h_model_loaded h));
     ("model_path", VStr (h_model_path h));
     ("num_classes", VInt (h_num_classes h));
     ("status", VStr (h_status h))].

(** What leaves an endpoint function by [raise]: an [HTTPException], which
    the framework turns into a response with that status code, or any other
    exception. *)
Inductive raised : Type :=
| HTTPException (status_code : nat) (detail : string)
| Uncaught (e : exn).

(** How an endpoint function ends: it returns a body with a status code
    (200 for a plain [dict], the given code for a [JSONResponse]) or it
    raises. *)
Inductive outcome : Type :=
| Returned (status_code : nat) (body : dict)
| Raised (r : raised).

(** The uploaded file as the endpoint sees it: the declared content type
    (possibly absent) and what [await file.read()] gives. *)
Record UploadFile : Type := mkUpload {
  content_type : option string;
  read : result (list byte)
}.

(** [os.path.join(a, b)] on POSIX paths. *)
Definition os_path_join (a b : string) : string :=
  if String.prefix "/" b then b
  else if String.eqb a "" then b
  else if String.eqb (substring (String.length a - 1) 1 a) "/" then a ++ b
  else a ++ "/" ++ b.

(** [startup_event()]: the global [model_service] after start-up, for the
    directory [current_dir] of the script.  The warning on a failed load is
    printed only. *)
Definition startup_event (w : World) (current_dir : string) : option ModelService.t :=
  let model_path := os_path_join current_dir MODEL_PATH in
  let model_service := __init__ model_path in
  let '(success, model_service) := load_model w model_service in
  Some model_service.

(** [health_check()], with the global [model_service] passed in. *)
Definition health_check (model_service : option ModelService.t) : outcome :=
  match model_service with
  | None =>
      Returned 503
        (dict_update []
           [("status", VStr "error");
            ("message", VStr "Model service not initialized");
            ("model_loaded", VBool false)])
  | Some svc =>
      match fst (get_health_status svc) with
      | Raise e => Raised (Uncaught e)
      | Ok health_status =>
          Returned 200
            (dict_update []
               ([("status",
                  VStr (if h_model_loaded health_status
                        then "success" else "warning"));
                 ("message", VStr "Service is running")]
                ++ health_status_dict health_status)%list)
      end
  end.

(** [round(x, ndigits)]: the nearest multiple of [10 ^ -ndigits], a tie
    going to the even one. *)
Definition py_round (x : Q) (ndigits : nat) : Q :=
  let scale := inject_Z (10 ^ Z.of_nat ndigits) in
  let y := x * scale in
  let f := Qfloor y in
  let frac := y - inject_Z f in
  let n := if Qltb frac (1 # 2) then f
           else if Qltb (1 # 2) frac then (f + 1)%Z
           else if Z.even f then f else (f + 1)%Z in
  inject_Z n / scale.

(** [x in SUPPORTED_FORMATS] for the declared content type. *)
Definition in_supported_formats (ct : option string) : bool :=
  match ct with
  | None => false
  | Some s => existsb (String.eqb s) SUPPORTED_FORMATS
  end.

(** The [try] block of [predict_dog_breed] for the loaded service [svc]:
    what it returns or raises, and the service afterwards. *)
Definition predict_try_block (pil : Pillow) (svc : ModelService.t)
           (file : UploadFile) : (dict + raised) * ModelService.t :=
  (* Read file content *)
  match read file with
  | Raise e => (inr (Uncaught e), svc)
  | Ok file_content =>
      (* Check file size *)
      if (MAX_FILE_SIZE <? N.of_nat (List.length file_content))%N
      then (inr (HTTPException 400 "File too large. Maximum size allowed: 10.0MB"),
            svc)
      else
        (* Validate image format *)
        match validate_image_format pil file_content with
        | Raise e => (inr (Uncaught e), svc)
        | Ok false =>
            (inr (HTTPException 400 "Invalid image file or corrupted image"), svc)
        | Ok true =>
            (* Process image *)
            match process_image_from_bytes pil file_content with
            | Raise e => (inr (Uncaught e), svc)
            | Ok processed_image =>
                (* Prepare for prediction (add batch dimension) *)
                let image_batch := prepare_image_for_prediction processed_image in
                (* Make prediction *)
                match predict image_batch svc with
                | (Raise e, svc') => (inr (Uncaught e), svc')
                | (Ok (predicted_breed, confidence), svc') =>
                    (inl (dict_update []
                            [("status", VStr "success");
                             ("predicted_breed", VStr predicted_breed);
                             ("confidence", VFloat (py_round confidence 4));
                             ("message", VStr "Prediction successful")]),
                     svc')
                end
            end
        end
  end.

(** [predict_dog_breed(file)], with the global [model_service] passed in and
    handed back.  [set_order] is the order in which this process iterates
    the set [SUPPORTED_FORMATS]; it only shows in one message. *)
Definition predict_dog_breed (pil : Pillow) (set_order : list string)
           (model_service : option ModelService.t) (file : UploadFile)
  : outcome * option ModelService.t :=
  match model_service with
  | None =>
      (Raised (HTTPException 503
                 "Model service not available. Please check service health."),
       None)
  | Some svc =>
      (* Validate model service *)
      if negb (is_loaded svc)
      then (Raised (HTTPException 503
                      "Model service not available. Please check service health."),
            Some svc)
      (* Validate file format *)
      else if negb (in_supported_formats (content_type file))
      then (Raised (HTTPException 400
                      ("Unsupported file format. Supported formats: "
                       ++ String.concat ", " set_order)),
            Some svc)
      else
        match predict_try_block pil svc file with
        | (inl body, svc') => (Returned 200 body, Some svc')
        (* Re-raise HTTP exceptions *)
        | (inr (HTTPException code detail), svc') =>
            (Raised (HTTPException code detail), Some svc')
        (* Handle any other errors *)
        | (inr (Uncaught e), svc') =>
            (Raised (HTTPException 500
                       ("Internal server error during prediction: " ++ exn_msg e)),
             Some svc')
        end
  end.

(** The service accepts uploads: it exists and is loaded. *)
Definition service_ready (model_service : option ModelService.t) : bool :=
  match model_service with
  | Some svc => is_loaded svc
  | None => false
  end.

(** A sequence of uploads handled one after the other, each on the global
    [model_service] the previous one left. *)
Fixpoint serve (pil : Pillow) (set_order : list string)
         (model_service : option ModelService.t) (files : list UploadFile)
  : list outcome * option ModelService.t :=
  match files with
  | [] => ([], model_service)
  | file :: rest =>
      let '(o, model_service') :=
        predict_dog_breed pil set_order model_service file in
      let '(os, model_service'') := serve pil set_order model_service' rest in
      (o :: os, model_service'')
  end.

(** A stand-in for Pillow on a file cut off after its header: every byte
    sequence opens and verifies as a 1 x 1 RGB image whose pixel data cannot
    be decoded. *)
Definition pillow_truncated_data : Pillow :=
  mkPillow
    (fun _ => Ok (mkImage RGB 1 1 (fun i => (i, i, i))
                    (Raise (mkExn "OSError" "image file is truncated"))))
    (fun _ => Ok tt).

(** The status code a client receives. *)
Definition status_of (o : outcome) : option nat :=
  match o with
  | Returned code _ => Some code
  | Raised (HTTPException code _) => Some code
  | Raised (Uncaught _) => None
  end.

End App.

(** ** [backend/image_processor.py]: the file-path pipeline *)

Module FilePipeline.

Import ImageProcessor.

(** What [tf.image.decode_jpeg(data, channels=3)] returns: a uint8 tensor
    of shape (height, width, 3). *)
Record DecodedJpeg : Type := mkJpeg {
  jpeg_height : nat;
  jpeg_width : nat;
  jpeg_px : nat -> nat -> byte * byte * byte
}.

(** What the function asks of TensorFlow's file and codec operations. *)
Record TensorFlowIO : Type := mkTFIO {
  tf_io_read_file : string -> result (list byte);
  tf_image_decode_jpeg : list byte -> result DecodedJpeg
}.

(** The decoded tensor laid out row, column, band. *)
Definition jpeg_tensor (d : DecodedJpeg) : list (list (list N)) :=
  map (fun y =>
         map (fun x => map Byte.to_N (bands RGB (jpeg_px d x y)))
             (seq 0 (jpeg_width d)))
      (seq 0 (jpeg_height d)).

(** The decoded JPEG seen as an opened RGB Pillow image. *)
Definition jpeg_as_image (d : DecodedJpeg) : Image :=
  mkImage RGB (jpeg_width d) (jpeg_height d) (fun i => (i, i, i)) (Ok (jpeg_px d)).

(** One uint8 channel value as [convert_image_dtype] scales it. *)
Definition normalize (b : byte) : Q := inject_Z (Z.of_N (Byte.to_N b)) * (1 # 255).

(** Stand-ins for the decoders, for running the functions: every byte
    sequence decodes to the [w] x [h] image of the single colour [c]. *)
Definition solid_pillow (w h : nat) (c : byte * byte * byte) : Pillow :=
  mkPillow (fun _ => Ok (mkImage RGB w h (fun i => (i, i, i)) (Ok (fun _ _ => c))))
           (fun _ => Ok tt).

Definition solid_tfio (w h : nat) (c : byte * byte * byte) : TensorFlowIO :=
  mkTFIO (fun _ => Ok []) (fun _ => Ok (mkJpeg h w (fun _ _ => c))).

(** [process_image_from_file_path(image_path)] *)
Definition process_image_from_file_path (tfio : TensorFlowIO) (image_path : string)
  : result Tensor3 :=
  (* Read image file *)
  rbind (tf_io_read_file tfio image_path) (fun image =>
  (* Decode JPEG image (assumes JPEG format) *)
  rbind (tf_image_decode_jpeg tfio image) (fun image =>
  (* Convert to float32 and normalize (0-255 to 0-1) *)
  let image := convert_image_dtype (jpeg_tensor image) in
  (* Resize to the required size (224, 224) *)
  tf_image_resize image IMG_SIZE IMG_SIZE)).

End FilePipeline.

(** ** [backend/validate_setup.py] *)

Module ValidateSetup.

(** How [__import__(package)] ends. *)
Inductive import_outcome : Type :=
| Imported
| RaisesImportError
| RaisesOther (e : exn).

(** What the script asks of the interpreter and the file system.  [compile]
    raises [SyntaxError] or another exception on bad source. *)
Record Host : Type := mkHost {
  os_chdir : result unit;
  os_path_exists : string -> bool;
  os_path_getsize : string -> result N;
  read_text : string -> result string;
  compile : string -> string -> result unit;
  import_ : string -> import_outcome
}.

Definition required_files : list string :=
  ["app.py"; "model_service.py"; "image_processor.py"; "requirements.txt";
   "README.md"].

(** [check_file_structure()]; the [print] calls of this module write to
    standard output only and are left out throughout. *)
Definition check_file_structure (h : Host) : bool :=
  let missing_files :=
    fold_left (fun missing file =>
                 if os_path_exists h file then missing
                 else (missing ++ [file])%list)
              required_files [] in
  (List.length missing_files =? 0)%nat.

Definition model_path : string :=
  "../20250421-07101745219413-10k-images-mobilenetv2-Adam.keras".

(** [check_model_file()]: the size is read for the message only, but
    reading it can raise. *)
Definition check_model_file (h : Host) : result bool :=
  if os_path_exists h model_path
  then rbind (os_path_getsize h model_path) (fun size => Ok true)
  else Ok false.

Definition python_files : list string :=
  ["app.py"; "model_service.py"; "image_processor.py"].

(** [check_code_syntax()]: both [except] clauses set [all_valid] to false
    and go on with the next file. *)
Definition check_code_syntax (h : Host) : bool :=
  fold_left (fun all_valid file =>
               match rtry_except
                       (rbind (read_text h file) (fun content =>
                        rbind (compile h content file) (fun _ => Ok all_valid)))
                       (fun e => Ok false)
               with
               | Ok b => b
               | Raise _ => false
               end)
            python_files true.

Definition expected_packages : list string :=
  ["fastapi"; "uvicorn"; "tensorflow"; "PIL"; "numpy"].

(** [check_imports()]: only [ImportError] is caught. *)
Definition check_imports (h : Host) : result unit :=
  fold_left (fun acc package =>
               rbind acc (fun _ =>
               match import_ h package with
               | Imported => Ok tt
               | RaisesImportError => Ok tt
               | RaisesOther e => Raise e
               end))
            expected_packages (Ok tt).

(** A Python file passes the syntax check: it can be read and compiled. *)
Definition compiles (h : Host) (file : string) : bool :=
  match read_text h file with
  | Ok content => is_ok (compile h content file)
  | Raise _ => false
  end.

(** A host on which every file exists and compiles and no optional package
    is installed. *)
Definition host_without_packages : Host :=
  mkHost (Ok tt) (fun _ => true) (fun _ => Ok 1%N) (fun _ => Ok "")
         (fun _ _ => Ok tt) (fun _ => RaisesImportError).

(** [main()]: the exit code. *)
Definition main (h : Host) : result nat :=
  rbind (os_chdir h) (fun _ =>
  let structure_ok := check_file_structure h in
  rbind (check_model_file h) (fun model_ok =>
  let syntax_ok := check_code_syntax h in
  rbind (check_imports h) (fun _ =>
  if structure_ok && model_ok && syntax_ok then Ok 0%nat else Ok 1%nat))).

End ValidateSetup.

(** * Properties *)

Import ModelService.

(** ** [np.argmax] *)

Lemma Qltb_true (a b : Q) : Qltb a b = true -> a < b.
Proof.
  unfold Qltb. intros H. apply negb_true_iff in H.
  apply Qnot_le_lt. intros Hle. apply Qle_bool_iff in Hle. congruence.
Qed.

Lemma Qltb_false (a b : Q) : Qltb a b = false -> b <= a.
Proof.
  unfold Qltb. intros H. apply negb_false_iff in H.
  now apply Qle_bool_iff.
Qed.

(** The scan keeps its invariant: with [pre] the part of the vector already
    seen, the running best is the argmax of [pre]; at the end it is the
    argmax of the whole vector. *)
Lemma argmax_from_invariant (l pre : list Q) (best_i : nat) (best : Q) :
  is_argmax pre best_i best ->
  is_argmax (pre ++ l)%list
            (fst (argmax_from best_i best (List.length pre) l))
            (snd (argmax_from best_i best (List.length pre) l)).
Proof.
  revert pre best_i best.
  induction l as [|x r IH]; intros pre best_i best Hpre; cbn [argmax_from].
  - now rewrite app_nil_r.
  - destruct Hpre as (Hnth & Hall & Hfirst).
    assert (Hlen : List.length (pre ++ [x])%list = S (List.length pre))
      by (rewrite length_app; cbn; lia).
    replace (pre ++ x :: r)%list with ((pre ++ [x]) ++ r)%list
      by (now rewrite <- app_assoc).
    destruct (Qltb best x) eqn:Hcmp; rewrite <- Hlen; apply IH.
    + apply Qltb_true in Hcmp. repeat split.
      * rewrite nth_error_app2 by lia. now rewrite Nat.sub_diag.
      * apply Forall_app. split.
        -- eapply Forall_impl; [|exact Hall]. cbn. intros y Hy.
           apply Qlt_le_weak. eapply Qle_lt_trans; eassumption.
        -- constructor; [apply Qle_refl | constructor].
      * intros k y Hk Hy. rewrite nth_error_app1 in Hy by lia.
        apply nth_error_In in Hy.
        rewrite Forall_forall in Hall. specialize (Hall _ Hy).
        eapply Qle_lt_trans; eassumption.
    + apply Qltb_false in Hcmp. repeat split.
      * rewrite nth_error_app1; [assumption|].
        apply nth_error_Some. congruence.
      * apply Forall_app. split; [assumption|]. constructor; [assumption | constructor].
      * intros k y Hk Hy.
        assert (best_i < List.length pre)%nat
          by (apply nth_error_Some; congruence).
        rewrite nth_error_app1 in Hy by lia. eauto.
Qed.

Lemma np_argmax_spec (x : Q) (r : list Q) :
  exists i m, np_argmax (x :: r) = Ok i
              /\ getitem (x :: r) i = Ok m
              /\ is_argmax (x :: r) i m.
Proof.
  pose proof (argmax_from_invariant r [x] 0 x) as H.
  cbn [List.length app] in H.
  destruct (argmax_from 0 x 1 r) as [i m] eqn:E. cbn [fst snd] in H.
  exists i, m. unfold np_argmax. rewrite E. cbn [fst].
  assert (Hx : is_argmax [x] 0 x).
  { repeat split.
    - constructor; [apply Qle_refl | constructor].
    - intros k y Hk. lia. }
  specialize (H Hx). split; [reflexivity|]. split; [|assumption].
  unfold getitem. destruct H as (-> & _). reflexivity.
Qed.

(** ** [predict] *)

(** The label [predict] resolves an index to. *)
Lemma predict_ready (self : t) (m : Model) (x : Tensor) :
  is_loaded self = true -> model self = Some m ->
  predict x self =
    (match predict_body m (dog_breeds self) x with
     | Ok r => Ok r
     | Raise e => Raise (PredictionError e)
     end, self).
Proof.
  intros Hl Hm.
  unfold predict, predict_body, bind, gets, try_except, call, raise, ret.
  cbv beta iota. rewrite Hl, Hm. cbn [negb orb is_None]. cbv beta.
  rewrite Hm. cbn [model_predict].
  destruct (m x) as [predictions|e]; cbn [rbind]; [|reflexivity].
  destruct (getitem predictions 0) as [row|e]; cbn [rbind]; [|reflexivity].
  destruct (np_argmax row) as [i|e]; cbn [rbind]; [|reflexivity].
  destruct (getitem row i) as [confidence|e]; reflexivity.
Qed.

Lemma predict_not_ready (self : t) (x : Tensor) :
  is_loaded self = false \/ model self = None ->
  predict x self = (Raise NotLoadedError, self).
Proof.
  intros H. unfold predict, bind, gets, raise. cbv beta iota.
  destruct H as [H | H]; rewrite H; cbn [negb orb is_None];
    [|rewrite orb_true_r]; reflexivity.
Qed.

(** What the [try] block computes once the model has answered with a
    non-empty first score vector. *)
Lemma predict_body_scores (m : Model) (breeds : list string) (x : Tensor)
      (v : list Q) (rest : list (list Q)) :
  m x = Ok (v :: rest) -> v <> [] ->
  exists i conf,
    is_argmax v i conf
    /\ predict_body m breeds x =
         Ok (if Nat.ltb i (List.length breeds) then nth i breeds ""
             else "unknown_breed_" ++ str_of_nat i, conf).
Proof.
  intros Hm Hv. destruct v as [|q r]; [congruence|].
  destruct (np_argmax_spec q r) as (i & conf & Hi & Hget & Harg).
  exists i, conf. split; [assumption|].
  unfold predict_body. rewrite Hm. cbn [rbind getitem nth_error].
  rewrite Hi. cbn [rbind]. rewrite Hget. reflexivity.
Qed.

(** On an empty first score vector the [try] block raises. *)
Lemma predict_body_empty (m : Model) (breeds : list string) (x : Tensor)
      (rest : list (list Q)) :
  m x = Ok ([] :: rest) -> is_ok (predict_body m breeds x) = false.
Proof.
  intros Hm. unfold predict_body. rewrite Hm. reflexivity.
Qed.

Lemma prefix_app (p s : string) : String.prefix p (p ++ s) = true.
Proof.
  induction p as [|c p IH]; cbn.
  - now destruct s.
  - destruct (Ascii.ascii_dec c c); [assumption | congruence].
Qed.

Lemma append_empty_r (s : string) : s ++ "" = s.
Proof. induction s as [|c s IH]; cbn; [reflexivity | now rewrite IH]. Qed.

Lemma no_placeholder_not_in (breeds : list string) (n : nat) :
  no_placeholder breeds = true ->
  ~ In ("unknown_breed_" ++ str_of_nat n) breeds.
Proof.
  unfold no_placeholder. rewrite forallb_forall. intros H Hin.
  specialize (H _ Hin). rewrite prefix_app in H. discriminate.
Qed.

Lemma step_dog_breeds (o : op) (self : t) :
  dog_breeds (step o self) = dog_breeds self.
Proof.
  destruct o as [w|x|]; cbn [step].
  - unfold load_model, try_except, bind, gets, call, modify, ret.
    destruct (negb (path_exists w (model_path self))); [reflexivity|].
    destruct (keras_load_model w (model_path self)); reflexivity.
  - destruct (is_loaded self) eqn:Hl; [destruct (model self) as [m|] eqn:Hm|].
    + now rewrite (predict_ready self m x Hl Hm).
    + now rewrite predict_not_ready by now right.
    + now rewrite predict_not_ready by now left.
  - reflexivity.
Qed.

Lemma run_dog_breeds (ops : list op) (self : t) :
  dog_breeds (run ops self) = dog_breeds self.
Proof.
  revert self. induction ops as [|o rest IH]; intros self; cbn [run].
  - reflexivity.
  - now rewrite IH, step_dog_breeds.
Qed.

(** C1 (as amended).  On a loaded service whose model answers with a
    non-empty score vector [v], [predict] returns, without raising and
    without changing the service, the maximum of [v] as confidence and the
    vocabulary entry at the argmax index as label when that index is in
    range; out of range the label is ["unknown_breed_"] followed by the
    index in decimal, which contains the index and is no vocabulary entry
    as long as no vocabulary entry itself starts with ["unknown_breed_"],
    as is the case for the built-in vocabulary, which a service used
    through its methods alone always has.  With scores
    [0.1, 0.7, 0.2] and vocabulary [a, b, c] the result is [(b, 0.7)]. *)
Theorem predict_label_and_confidence :
  (forall (self : t) (m : Model) (x : Tensor) (v : list Q) (rest : list (list Q)),
      is_loaded self = true -> model self = Some m ->
      m x = Ok (v :: rest) -> v <> [] ->
      exists i conf label,
        predict x self = (Ok (label, conf), self)
        /\ is_argmax v i conf
        /\ ((i < List.length (dog_breeds self))%nat ->
            nth_error (dog_breeds self) i = Some label)
        /\ ((List.length (dog_breeds self) <= i)%nat ->
            label = "unknown_breed_" ++ str_of_nat i
            /\ contains (str_of_nat i) label
            /\ (no_placeholder (dog_breeds self) = true ->
                ~ In label (dog_breeds self))))
  /\ (forall (path : string) (ops : list op),
         no_placeholder (dog_breeds (run ops (__init__ path))) = true)
  /\ (forall (path : string) (x : Tensor),
         predict x (mkService path (Some (stub_model [[1#10; 7#10; 2#10]]))
                              ["a"; "b"; "c"] true)
         = (Ok ("b", 7#10),
            mkService path (Some (stub_model [[1#10; 7#10; 2#10]]))
                      ["a"; "b"; "c"] true)).
Proof.
  split; [|split].
  - intros self m x v rest Hl Hm Hout Hv.
    destruct (predict_body_scores m (dog_breeds self) x v rest Hout Hv)
      as (i & conf & Harg & Hbody).
    exists i, conf.
    eexists. split; [|split; [exact Harg|]].
    + rewrite (predict_ready self m x Hl Hm), Hbody. reflexivity.
    + split.
      * intros Hi. apply Nat.ltb_lt in Hi as Hb. rewrite Hb.
        now apply nth_error_nth'.
      * intros Hi. apply Nat.ltb_ge in Hi as Hb. rewrite Hb.
        split; [reflexivity|]. split.
        -- exists "unknown_breed_", "". now rewrite append_empty_r.
        -- intros Hnp. now apply no_placeholder_not_in.
  - intros path ops. rewrite run_dog_breeds. vm_compute. reflexivity.
  - intros path x. reflexivity.
Qed.

(** The first part of C1 at the scores [0.2, 0.1, 0.1, 0.9] over the
    built-in vocabulary. *)
Lemma predict_label_and_confidence_witness :
  exists i conf label,
    predict [] (mkService "m.keras" (Some (stub_model [[2#10; 1#10; 1#10; 9#10]]))
                          _get_dog_breeds true)
    = (Ok (label, conf),
       mkService "m.keras" (Some (stub_model [[2#10; 1#10; 1#10; 9#10]]))
                 _get_dog_breeds true)
    /\ is_argmax [2#10; 1#10; 1#10; 9#10] i conf.
Proof.
  destruct (proj1 predict_label_and_confidence
              (mkService "m.keras" (Some (stub_model [[2#10; 1#10; 1#10; 9#10]]))
                         _get_dog_breeds true)
              (stub_model [[2#10; 1#10; 1#10; 9#10]]) []
              [2#10; 1#10; 1#10; 9#10] []
              eq_refl eq_refl eq_refl ltac:(discriminate))
    as (i & conf & label & Hp & Ha & _).
  exists i, conf, label. split; assumption.
Defined.

(** C1 as stated fails: when the vocabulary holds the text of a placeholder,
    the label synthesized for an out-of-range index is a vocabulary entry.
    A service whose [dog_breeds] attribute was set to the one-entry
    vocabulary [unknown_breed_1], scores [0, 1]: the argmax index 1 is out of
    range and the label returned is the vocabulary entry at index 0. *)
Lemma predict_placeholder_collides :
  let self := mkService "m.keras" (Some (stub_model [[0; 1]]))
                        ["unknown_breed_1"] true in
  is_argmax [0; 1] 1 1
  /\ (List.length (dog_breeds self) <= 1)%nat
  /\ predict [] self = (Ok ("unknown_breed_1", 1), self)
  /\ In "unknown_breed_1" (dog_breeds self).
Proof.
  cbn zeta. repeat split.
  - repeat constructor; discriminate.
  - intros k y Hk Hy. destruct k as [|k]; [|lia].
    cbn in Hy. injection Hy as <-. reflexivity.
  - cbn. lia.
  - now left.
Qed.

(** C5.  While [is_loaded] is false every [predict] call raises the
    not-loaded failure and returns no result; the outcome is the same
    whatever model object the service holds, so the model is not run. *)
Theorem predict_before_load_fails (self : t) (x : Tensor) :
  is_loaded self = false ->
  predict x self = (Raise NotLoadedError, self)
  /\ (forall label conf s', predict x self <> (Ok (label, conf), s'))
  /\ (forall mdl : option Model,
         fst (predict x (set_model mdl self)) = Raise NotLoadedError).
Proof.
  intros Hl. split; [|split].
  - apply predict_not_ready. now left.
  - intros label conf s'. rewrite predict_not_ready by now left. discriminate.
  - intros mdl. rewrite predict_not_ready; [reflexivity|]. now left.
Qed.

Lemma predict_before_load_fails_witness :
  predict [] (__init__ "model.keras")
  = (Raise NotLoadedError, __init__ "model.keras").
Proof.
  exact (proj1 (predict_before_load_fails (__init__ "model.keras") [] eq_refl)).
Defined.

(** C8 (as amended).  [predict] returns one of the model's scores
    unchanged: when every score of the vector the model answers with lies in
    [0, 1], so does the confidence. *)
Theorem predict_confidence_in_unit_interval
        (self s' : t) (m : Model) (x : Tensor) (v : list Q)
        (rest : list (list Q)) (label : string) (conf : Q) :
  model self = Some m -> m x = Ok (v :: rest) ->
  Forall (fun p => 0 <= p /\ p <= 1) v ->
  predict x self = (Ok (label, conf), s') ->
  In conf v /\ 0 <= conf /\ conf <= 1.
Proof.
  intros Hm Hout Hv Hp.
  assert (Hin : In conf v).
  { destruct (is_loaded self) eqn:Hl.
    - rewrite (predict_ready self m x Hl Hm) in Hp.
      destruct v as [|q r].
      + pose proof (predict_body_empty m (dog_breeds self) x rest Hout) as He.
        destruct (predict_body m (dog_breeds self) x); [discriminate He | discriminate Hp].
      + destruct (predict_body_scores m (dog_breeds self) x (q :: r) rest Hout)
          as (i & c & (Hnth & _) & Hbody); [discriminate|].
        rewrite Hbody in Hp. injection Hp as _ <-.
        eapply nth_error_In; eassumption.
    - rewrite predict_not_ready in Hp by now left. discriminate. }
  split; [assumption|]. rewrite Forall_forall in Hv. now apply Hv.
Qed.

Lemma predict_confidence_in_unit_interval_witness :
  In (7#10) [1#10; 7#10; 2#10] /\ 0 <= 7#10 /\ 7#10 <= 1.
Proof.
  refine (predict_confidence_in_unit_interval
            (mkService "m.keras" (Some (stub_model [[1#10; 7#10; 2#10]]))
                       ["a"; "b"; "c"] true)
            _ (stub_model [[1#10; 7#10; 2#10]]) [] [1#10; 7#10; 2#10] []
            "b" (7#10) eq_refl eq_refl _ eq_refl).
  repeat constructor; discriminate.
Defined.

(** C8 as stated fails: [predict] does not clamp.  A model that answers
    with the single score 2 yields the confidence 2. *)
Lemma predict_confidence_above_one :
  let self := snd (load_model (world_ok (stub_model [[2]])) (__init__ "model.keras")) in
  predict [] self = (Ok ("affenpinscher", 2), self) /\ ~ (2 <= 1).
Proof.
  cbn zeta. split; [reflexivity|]. unfold Qle. cbn. lia.
Qed.

(** C9.  The built-in vocabulary is not a duplicate-free list of 120
    entries: it has 141 entries, [basenji] sits at the indices 7 and 120, so
    the index-to-label lookup of [predict] sends two different argmax
    indices to one label, and the health status reports 141 classes. *)
Theorem vocabulary_has_duplicates :
  nth_error _get_dog_breeds 7 = Some "basenji"
  /\ nth_error _get_dog_breeds 120 = Some "basenji"
  /\ (exists i j, i <> j
                  /\ (i < List.length _get_dog_breeds)%nat
                  /\ (j < List.length _get_dog_breeds)%nat
                  /\ nth_error _get_dog_breeds i = nth_error _get_dog_breeds j)
  /\ ~ NoDup _get_dog_breeds
  /\ List.length _get_dog_breeds = 141%nat
  /\ List.length _get_dog_breeds <> 120%nat
  /\ (forall (path : string) (x : Tensor),
         is_argmax (one_hot 141 7) 7 1 /\ is_argmax (one_hot 141 120) 120 1
         /\ fst (predict x (mkService path (Some (stub_model [one_hot 141 7]))
                                      _get_dog_breeds true))
            = Ok ("basenji", 1)
         /\ fst (predict x (mkService path (Some (stub_model [one_hot 141 120]))
                                      _get_dog_breeds true))
            = Ok ("basenji", 1))
  /\ (forall self : t,
         dog_breeds self = _get_dog_breeds ->
         exists h, fst (get_health_status self) = Ok h
                   /\ h_num_classes h = 141%nat).
Proof.
  assert (H7 : nth_error _get_dog_breeds 7 = Some "basenji") by reflexivity.
  assert (H120 : nth_error _get_dog_breeds 120 = Some "basenji") by reflexivity.
  assert (Hlen : List.length _get_dog_breeds = 141%nat) by reflexivity.
  repeat match goal with |- _ /\ _ => split end; try assumption.
  - exists 7%nat, 120%nat. rewrite Hlen, H7, H120.
    repeat split; [discriminate | lia | lia].
  - intros Hnd.
    assert (7 = 120)%nat; [|discriminate].
    eapply (proj1 (NoDup_nth_error _get_dog_breeds) Hnd).
    + rewrite Hlen. lia.
    + now rewrite H7, H120.
  - rewrite Hlen. discriminate.
  - intros path x.
    assert (Hsorted : forall i, (i < 141)%nat ->
              is_argmax (one_hot 141 i) i 1).
    { intros i Hi. unfold one_hot. repeat split.
      - rewrite nth_error_map, nth_error_seq.
        apply Nat.ltb_lt in Hi. rewrite Hi. cbn. now rewrite Nat.eqb_refl.
      - apply Forall_map, Forall_forall. intros k _.
        destruct (k =? i)%nat; discriminate.
      - intros k y Hk Hy. rewrite nth_error_map, nth_error_seq in Hy.
        assert (Hk' : (k <? 141)%nat = true) by (apply Nat.ltb_lt; lia).
        rewrite Hk' in Hy. cbn in Hy.
        assert (Hne : (k =? i)%nat = false) by (apply Nat.eqb_neq; lia).
        rewrite Hne in Hy. injection Hy as <-. reflexivity. }
    split; [apply Hsorted; lia|]. split; [apply Hsorted; lia|].
    split; vm_compute; reflexivity.
  - intros self Hb. eexists. split; [reflexivity|]. cbn. now rewrite Hb.
Qed.



(** ** [load_model] and the life cycle of the service *)

(** The three ways through [load_model]. *)
Lemma load_model_cases (w : World) (self : t) :
  load_model w self =
    if negb (path_exists w (model_path self)) then (Ok false, self)
    else match keras_load_model w (model_path self) with
         | Ok m => (Ok true, set_is_loaded true (set_model (Some m) self))
         | Raise _ => (Ok false, set_is_loaded false self)
         end.
Proof.
  unfold load_model, try_except, bind, gets, call, modify, ret.
  destruct (negb (path_exists w (model_path self))); [reflexivity|].
  destruct (keras_load_model w (model_path self)); reflexivity.
Qed.

Lemma load_model_failure_kind (w : World) (self : t) :
  fst (load_model w self) = Ok false <->
  file_missing w self = true \/ deserialization_raises w self = true.
Proof.
  rewrite load_model_cases. unfold file_missing, deserialization_raises.
  destruct (path_exists w (model_path self)); cbn [negb andb];
    [destruct (keras_load_model w (model_path self)); cbn|cbn]; intuition congruence.
Qed.

Lemma step_model_path (o : op) (self : t) :
  model_path (step o self) = model_path self.
Proof.
  destruct o as [w|x|]; cbn [step].
  - rewrite load_model_cases.
    destruct (negb (path_exists w (model_path self))); [reflexivity|].
    destruct (keras_load_model w (model_path self)); reflexivity.
  - destruct (is_loaded self) eqn:Hl; [destruct (model self) as [m|] eqn:Hm|].
    + now rewrite (predict_ready self m x Hl Hm).
    + now rewrite predict_not_ready by now right.
    + now rewrite predict_not_ready by now left.
  - reflexivity.
Qed.

Lemma step_keeps_loaded (o : op) (self : t) :
  is_loaded self = true -> op_deserialization_raises self o = false ->
  is_loaded (step o self) = true.
Proof.
  intros Hl Hno. destruct o as [w|x|]; cbn [step].
  - cbn [op_deserialization_raises] in Hno. unfold deserialization_raises in Hno.
    rewrite load_model_cases.
    destruct (path_exists w (model_path self)); cbn [negb andb snd] in *;
      [|assumption].
    destruct (keras_load_model w (model_path self)); [reflexivity | discriminate].
  - destruct (model self) as [m|] eqn:Hm.
    + now rewrite (predict_ready self m x Hl Hm).
    + now rewrite predict_not_ready by now right.
  - assumption.
Qed.

Lemma op_deserialization_raises_path (o : op) (s1 s2 : t) :
  model_path s1 = model_path s2 ->
  op_deserialization_raises s1 o = op_deserialization_raises s2 o.
Proof.
  intros H. destruct o; cbn; [|reflexivity|reflexivity].
  unfold deserialization_raises. now rewrite H.
Qed.

(** C3 (as amended).  [load_model] never raises.  A call that returns
    false (the file is missing, or deserialization raised) installs no
    model: the [model] attribute, the path and the vocabulary are what they
    were.  After a deserialization failure [is_loaded] is false; after a
    missing file the service is exactly as before, so a service that was not
    loaded is still not loaded. *)
Theorem load_model_failure_installs_nothing (w : World) (self : t) :
  exists b s',
    load_model w self = (Ok b, s')
    /\ (b = false <->
        file_missing w self = true \/ deserialization_raises w self = true)
    /\ (b = false ->
        model s' = model self
        /\ model_path s' = model_path self
        /\ dog_breeds s' = dog_breeds self
        /\ (is_loaded self = false -> is_loaded s' = false)
        /\ (deserialization_raises w self = true -> is_loaded s' = false)
        /\ (file_missing w self = true -> s' = self)).
Proof.
  pose proof (load_model_failure_kind w self) as Hkind.
  rewrite load_model_cases in *.
  unfold file_missing, deserialization_raises in *.
  destruct (path_exists w (model_path self)); cbn [negb andb] in *.
  - destruct (keras_load_model w (model_path self)) as [m|e]; cbn [fst is_ok negb] in *.
    + exists true, (set_is_loaded true (set_model (Some m) self)).
      split; [reflexivity|]. split; [|discriminate].
      split; [discriminate|]. intros [H|H]; discriminate H.
    + exists false, (set_is_loaded false self).
      split; [reflexivity|]. split; [tauto|]. intros _.
      repeat split; try reflexivity. discriminate.
  - exists false, self. split; [reflexivity|]. split; [tauto|]. intros _.
    repeat split; try reflexivity; try tauto. discriminate.
Qed.

Lemma load_model_failure_installs_nothing_witness :
  exists b s',
    load_model world_corrupt (mkService "model.keras" None _get_dog_breeds false)
    = (Ok b, s')
    /\ (b = false -> model s' = None /\ is_loaded s' = false).
Proof.
  destruct (load_model_failure_installs_nothing
              world_corrupt (mkService "model.keras" None _get_dog_breeds false))
    as (b & s' & Hrun & _ & Hfail).
  exists b, s'. split; [exact Hrun|].
  intros Hb. destruct (Hfail Hb) as (Hm & _ & _ & Hl & _).
  split; [exact Hm | exact (Hl eq_refl)].
Defined.

(** C3 as stated fails: on a loaded service a load that fails because the
    file is missing returns false and leaves [is_loaded] true. *)
Lemma load_model_missing_file_keeps_loaded :
  let self := snd (load_model (world_ok (stub_model [[1]])) (__init__ "model.keras")) in
  is_loaded self = true
  /\ file_missing world_missing self = true
  /\ fst (load_model world_missing self) = Ok false
  /\ is_loaded (snd (load_model world_missing self)) = true.
Proof. cbn zeta. repeat split. Qed.

(** C4 (as amended).  A loaded service stays loaded through every sequence
    of predictions, health queries, successful loads and loads that fail
    because the file is missing; a load whose deserialization raises is the
    one operation that sets [is_loaded] back to false. *)
Theorem loaded_is_kept_unless_deserialization_raises
        (ops : list op) (self : t) :
  is_loaded self = true ->
  forallb (fun o => negb (op_deserialization_raises self o)) ops = true ->
  is_loaded (run ops self) = true
  /\ (forall w, deserialization_raises w (run ops self) = true ->
                fst (load_model w (run ops self)) = Ok false
                /\ is_loaded (step (OpLoad w) (run ops self)) = false).
Proof.
  revert self. induction ops as [|o rest IH]; intros self Hl Hall.
  - cbn [run]. split; [assumption|]. intros w Hw.
    cbn [step]. rewrite load_model_cases.
    unfold deserialization_raises in Hw.
    destruct (path_exists w (model_path self)); cbn [negb andb] in *;
      [|discriminate].
    destruct (keras_load_model w (model_path self)); [discriminate|].
    split; reflexivity.
  - cbn [run]. cbn [forallb] in Hall. apply andb_true_iff in Hall as [Ho Hrest].
    apply negb_true_iff in Ho. apply IH.
    + now apply step_keeps_loaded.
    + rewrite forallb_forall in *. intros o' Hin.
      rewrite (op_deserialization_raises_path o' (step o self) self)
        by apply step_model_path.
      now apply Hrest.
Qed.

Lemma loaded_is_kept_unless_deserialization_raises_witness :
  is_loaded (run [OpPredict []; OpLoad world_missing; OpHealth;
                  OpLoad (world_ok (stub_model [[1]]))]
                 (snd (load_model (world_ok (stub_model [[1]]))
                                  (__init__ "model.keras"))))
  = true.
Proof.
  exact (proj1 (loaded_is_kept_unless_deserialization_raises
                  [OpPredict []; OpLoad world_missing; OpHealth;
                   OpLoad (world_ok (stub_model [[1]]))]
                  (snd (load_model (world_ok (stub_model [[1]]))
                                   (__init__ "model.keras")))
                  eq_refl eq_refl)).
Defined.

(** C4 as stated fails: from the initial state, a successful load followed
    by a load whose deserialization raises ends with [is_loaded] false. *)
Lemma loaded_then_unloaded :
  let s0 := __init__ "model.keras" in
  let s1 := run [OpLoad (world_ok (stub_model [[1]]))] s0 in
  let s2 := run [OpLoad (world_ok (stub_model [[1]])); OpLoad world_corrupt] s0 in
  is_loaded s0 = false
  /\ fst (load_model (world_ok (stub_model [[1]])) s0) = Ok true
  /\ is_loaded s1 = true
  /\ fst (load_model world_corrupt s1) = Ok false
  /\ is_loaded s2 = false.
Proof. cbn zeta. repeat split. Qed.

(** ** [get_health_status] *)

Lemma get_health_status_value (self : t) :
  get_health_status self =
    (Ok (mkHealth (is_loaded self) (model_path self)
                  (List.length (dog_breeds self))
                  (if is_loaded self then "healthy" else "model_not_loaded")),
     self).
Proof. reflexivity. Qed.

(** C6 (as amended).  [get_health_status] never raises and leaves the
    service unchanged; its loaded flag is [is_loaded], and its status is
    [healthy] exactly when the flag is true and [model_not_loaded]
    otherwise.  Right after a load that returned true the flag is true;
    on a new service, after a failed load on a service that was not loaded,
    and after a load that failed by a deserialization error, the flag is
    false. *)
Theorem health_status_follows_is_loaded :
  (forall self : t,
      exists h,
        get_health_status self = (Ok h, self)
        /\ h_model_loaded h = is_loaded self
        /\ h_model_path h = model_path self
        /\ h_num_classes h = List.length (dog_breeds self)
        /\ (h_status h = "healthy" <-> h_model_loaded h = true)
        /\ (h_status h = "model_not_loaded" <-> h_model_loaded h = false))
  /\ (forall (w : World) (self s' : t),
         load_model w self = (Ok true, s') ->
         fst (get_health_status s')
         = Ok (mkHealth true (model_path self) (List.length (dog_breeds self))
                        "healthy"))
  /\ (forall path : string,
         fst (get_health_status (__init__ path))
         = Ok (mkHealth false path (List.length _get_dog_breeds)
                        "model_not_loaded"))
  /\ (forall (w : World) (self s' : t),
         is_loaded self = false ->
         load_model w self = (Ok false, s') ->
         fst (get_health_status s')
         = Ok (mkHealth false (model_path self) (List.length (dog_breeds self))
                        "model_not_loaded"))
  /\ (forall (w : World) (self : t),
         deserialization_raises w self = true ->
         fst (load_model w self) = Ok false
         /\ fst (get_health_status (snd (load_model w self)))
            = Ok (mkHealth false (model_path self) (List.length (dog_breeds self))
                           "model_not_loaded")).
Proof.
  split; [|split; [|split; [|split]]].
  - intros self. eexists. split; [apply get_health_status_value|].
    cbn. repeat split; destruct (is_loaded self); congruence.
  - intros w self s' Hload. rewrite load_model_cases in Hload.
    destruct (negb (path_exists w (model_path self))); [discriminate|].
    destruct (keras_load_model w (model_path self)); [|discriminate].
    injection Hload as <-. reflexivity.
  - reflexivity.
  - intros w self s' Hl Hload. rewrite load_model_cases in Hload.
    destruct (negb (path_exists w (model_path self))).
    + injection Hload as <-. rewrite get_health_status_value, Hl. reflexivity.
    + destruct (keras_load_model w (model_path self)); [discriminate|].
      injection Hload as <-. reflexivity.
  - intros w self Hw. rewrite load_model_cases.
    unfold deserialization_raises in Hw.
    destruct (path_exists w (model_path self)); cbn [negb andb] in *;
      [|discriminate].
    destruct (keras_load_model w (model_path self)); [discriminate|].
    split; reflexivity.
Qed.

Lemma health_status_follows_is_loaded_witness :
  fst (get_health_status
         (snd (load_model (world_ok (stub_model [[1]])) (__init__ "model.keras"))))
  = Ok (mkHealth true "model.keras" 141 "healthy")
  /\ fst (get_health_status
            (snd (load_model world_corrupt (__init__ "model.keras"))))
     = Ok (mkHealth false "model.keras" 141 "model_not_loaded").
Proof.
  split.
  - exact (proj1 (proj2 health_status_follows_is_loaded)
                 (world_ok (stub_model [[1]])) (__init__ "model.keras") _ eq_refl).
  - exact (proj1 (proj2 (proj2 (proj2 health_status_follows_is_loaded)))
                 world_corrupt (__init__ "model.keras") _ eq_refl eq_refl).
Defined.

(** C6 as stated fails: after a failed load the flag can be true.  On a
    loaded service a load that fails because the file is missing returns
    false, and the health status still reports loaded and healthy. *)
Lemma health_after_failed_load_still_healthy :
  let self := snd (load_model (world_ok (stub_model [[1]])) (__init__ "model.keras")) in
  fst (load_model world_missing self) = Ok false
  /\ fst (get_health_status (snd (load_model world_missing self)))
     = Ok (mkHealth true "model.keras" 141 "healthy").
Proof. cbn zeta. split; reflexivity. Qed.

(** ** Image preprocessing *)

Import ImageProcessor.

Lemma at3_unit_range (t : Tensor3) (y x c : nat) :
  in_unit_range t -> unit_range (at3 t y x c).
Proof.
  intros Ht. unfold at3.
  assert (Hrow : Forall (Forall unit_range) (nth y t [])).
  { destruct (nth_in_or_default y t []) as [Hin | ->]; [|constructor].
    unfold in_unit_range in Ht. rewrite Forall_forall in Ht. now apply Ht. }
  assert (Hpx : Forall unit_range (nth x (nth y t []) [])).
  { destruct (nth_in_or_default x (nth y t []) []) as [Hin | ->]; [|constructor].
    rewrite Forall_forall in Hrow. now apply Hrow. }
  destruct (nth_in_or_default c (nth x (nth y t []) []) 0) as [Hin | ->].
  - rewrite Forall_forall in Hpx. now apply Hpx.
  - split; discriminate.
Qed.

Lemma lerp_unit_range (i in_size out_size : nat) :
  unit_range (lerp (compute_interpolation_weights i in_size out_size)).
Proof.
  unfold compute_interpolation_weights, unit_range. cbn [lerp].
  set (inp := scaler i in_size out_size).
  pose proof (Qfloor_le inp) as Hlo. pose proof (Qlt_floor inp) as Hhi.
  rewrite inject_Z_plus in Hhi. change (inject_Z 1) with 1 in Hhi. lra.
Qed.

(** Interpolating between values of the unit interval stays inside it. *)
Lemma compute_lerp_unit_range (tl tr bl br xl yl : Q) :
  unit_range tl -> unit_range tr -> unit_range bl -> unit_range br ->
  unit_range xl -> unit_range yl ->
  unit_range (compute_lerp tl tr bl br xl yl).
Proof.
  unfold unit_range, compute_lerp.
  intros Htl Htr Hbl Hbr Hx Hy.
  assert (Htop : 0 <= tl + (tr - tl) * xl <= 1) by nra.
  assert (Hbot : 0 <= bl + (br - bl) * xl <= 1) by nra.
  cbn zeta.
  set (top := tl + (tr - tl) * xl) in *.
  set (bottom := bl + (br - bl) * xl) in *.
  nra.
Qed.

Lemma has_shape_tabulate (f : nat -> nat -> nat -> Q) (h w c : nat) :
  has_shape h w c
    (map (fun y => map (fun x => map (fun k => f y x k) (seq 0 c)) (seq 0 w))
         (seq 0 h)).
Proof.
  unfold has_shape. split; [now rewrite length_map, length_seq|].
  apply Forall_map, Forall_forall. intros y _.
  split; [now rewrite length_map, length_seq|].
  apply Forall_map, Forall_forall. intros x _.
  now rewrite length_map, length_seq.
Qed.

(** The resize step: whatever the (non-empty) source size, the result has
    the requested height and width, the channels of the source, and stays
    in the unit interval when the source is. *)
Lemma tf_image_resize_spec (t : Tensor3) (out_h out_w : nat) :
  (0 < List.length t)%nat -> (0 < List.length (hd [] t))%nat ->
  in_unit_range t ->
  exists r, tf_image_resize t out_h out_w = Ok r
            /\ has_shape out_h out_w (List.length (hd [] (hd [] t))) r
            /\ in_unit_range r.
Proof.
  intros Hh Hw Ht. unfold tf_image_resize.
  assert (E1 : (List.length t =? 0)%nat = false) by (apply Nat.eqb_neq; lia).
  assert (E2 : (List.length (hd [] t) =? 0)%nat = false) by (apply Nat.eqb_neq; lia).
  rewrite E1, E2. cbn [orb]. eexists. split; [reflexivity|]. split.
  - apply (has_shape_tabulate
             (fun y x c =>
                compute_lerp
                  (at3 t (lower (compute_interpolation_weights y (List.length t) out_h))
                       (lower (compute_interpolation_weights x (List.length (hd [] t)) out_w)) c)
                  (at3 t (lower (compute_interpolation_weights y (List.length t) out_h))
                       (upper (compute_interpolation_weights x (List.length (hd [] t)) out_w)) c)
                  (at3 t (upper (compute_interpolation_weights y (List.length t) out_h))
                       (lower (compute_interpolation_weights x (List.length (hd [] t)) out_w)) c)
                  (at3 t (upper (compute_interpolation_weights y (List.length t) out_h))
                       (upper (compute_interpolation_weights x (List.length (hd [] t)) out_w)) c)
                  (lerp (compute_interpolation_weights x (List.length (hd [] t)) out_w))
                  (lerp (compute_interpolation_weights y (List.length t) out_h)))).
  - unfold in_unit_range.
    apply Forall_map, Forall_forall. intros y _.
    apply Forall_map, Forall_forall. intros x _.
    apply Forall_map, Forall_forall. intros c _.
    apply compute_lerp_unit_range;
      first [now apply at3_unit_range | apply lerp_unit_range].
Qed.

Lemma byte_normalized_unit_range (b : byte) :
  unit_range (inject_Z (Z.of_N (Byte.to_N b)) * (1 # 255)).
Proof.
  pose proof (Byte.to_N_bounded b) as Hb.
  assert (Hz : (0 <= Z.of_N (Byte.to_N b) <= 255)%Z) by lia.
  destruct Hz as [Hz0 Hz1].
  rewrite Zle_Qle in Hz0, Hz1. unfold unit_range.
  change (inject_Z 0) with 0 in Hz0. change (inject_Z 255) with (255 # 1) in Hz1.
  lra.
Qed.

Lemma convert_then_array (image : Image) (px : nat -> nat -> pixel (im_mode image))
      (k : list (list (list N)) -> result Tensor3) :
  im_load image = Ok px ->
  rbind (if negb (mode_eqb (im_mode image) RGB)
         then convert_RGB image else Ok image)
        (fun im => rbind (np_array im) k)
  = k (rgb_array image px).
Proof.
  destruct image as [m w h pal ld]. cbn [im_load im_mode] in *. intros ->.
  destruct m; reflexivity.
Qed.

Lemma rgb_array_normalized (image : Image) (px : nat -> nat -> pixel (im_mode image)) :
  (0 < im_width image)%nat -> (0 < im_height image)%nat ->
  let t := convert_image_dtype (rgb_array image px) in
  (0 < List.length t)%nat
  /\ (0 < List.length (hd [] t))%nat
  /\ List.length (hd [] (hd [] t)) = 3%nat
  /\ in_unit_range t.
Proof.
  intros Hw Hh. cbn zeta. unfold convert_image_dtype, rgb_array.
  destruct (im_width image) as [|w]; [lia|].
  destruct (im_height image) as [|h]; [lia|].
  split; [|split; [|split]].
  - rewrite !length_map, length_seq. lia.
  - cbn [seq map hd List.length]. lia.
  - cbn [seq map hd].
    destruct (to_rgb (im_mode image) (im_palette image) (px 0%nat 0%nat))
      as [[r g] b]. reflexivity.
  - unfold in_unit_range. rewrite map_map.
    apply Forall_map, Forall_forall. intros y _. rewrite map_map.
    apply Forall_map, Forall_forall. intros x _. rewrite map_map.
    apply Forall_map, Forall_forall. intros b _.
    apply byte_normalized_unit_range.
Qed.

(** C2.  For every byte sequence Pillow opens as an image of one of the
    modes RGB, L (grey), RGBA or P (palette) whose pixel data decodes, of
    any width and height of at least one pixel, [process_image_from_bytes]
    returns a tensor of shape (224, 224, 3) whose values all lie in
    [0, 1]. *)
Theorem process_image_shape_and_range
        (pil : Pillow) (image_bytes : list byte) (image : Image)
        (px : nat -> nat -> pixel (im_mode image)) :
  Image_open pil image_bytes = Ok image ->
  im_load image = Ok px ->
  (0 < im_width image)%nat -> (0 < im_height image)%nat ->
  exists t : Tensor3,
    process_image_from_bytes pil image_bytes = Ok t
    /\ has_shape 224 224 3 t
    /\ in_unit_range t.
Proof.
  intros Hopen Hload Hw Hh.
  destruct (rgb_array_normalized image px Hw Hh) as (H1 & H2 & H3 & H4).
  destruct (tf_image_resize_spec _ IMG_SIZE IMG_SIZE H1 H2 H4) as (r & Hr & Hs & Hu).
  exists r. unfold process_image_from_bytes.
  rewrite Hopen. cbn [rbind].
  rewrite (convert_then_array image px _ Hload).
  rewrite Hr. rewrite H3 in Hs. now split.
Qed.

Lemma process_image_shape_and_range_witness :
  exists t : Tensor3,
    process_image_from_bytes toy_pillow [x50; x00; xff; x80] = Ok t
    /\ has_shape 224 224 3 t
    /\ in_unit_range t.
Proof.
  apply (process_image_shape_and_range
           toy_pillow [x50; x00; xff; x80]
           (mkImage L 3 1 (fun i => (i, i, i))
                    (Ok (fun x _ => nth x [x00; xff; x80] x00)))
           (fun x _ => nth x [x00; xff; x80] x00));
    [reflexivity | reflexivity | cbn; lia | cbn; lia].
Defined.



(** * Further properties of the service *)

(** ** The model service beyond its single calls *)

Lemma predict_keeps_service (x : Tensor) (self : t) :
  snd (predict x self) = self.
Proof.
  destruct (is_loaded self) eqn:Hl; [destruct (model self) as [m|] eqn:Hm|].
  - now rewrite (predict_ready self m x Hl Hm).
  - now rewrite predict_not_ready by now right.
  - now rewrite predict_not_ready by now left.
Qed.

Lemma step_keeps_model_present (o : op) (self : t) :
  (is_loaded self = true -> model self <> None) ->
  is_loaded (step o self) = true -> model (step o self) <> None.
Proof.
  intros Hinv. destruct o as [w|x|]; cbn [step].
  - rewrite load_model_cases.
    destruct (negb (path_exists w (model_path self))); [exact Hinv|].
    destruct (keras_load_model w (model_path self)); cbn; [discriminate|].
    discriminate.
  - now rewrite predict_keeps_service.
  - exact Hinv.
Qed.

(** X1.  A service that is created by [__init__] and then only used through
    [load_model], [predict] and [get_health_status] always holds a model
    when [is_loaded] is true, and keeps the path it was created with and the
    built-in vocabulary. *)
Theorem loaded_service_holds_a_model (path : string) (ops : list op) :
  (is_loaded (run ops (__init__ path)) = true ->
   exists m, model (run ops (__init__ path)) = Some m)
  /\ model_path (run ops (__init__ path)) = path
  /\ dog_breeds (run ops (__init__ path)) = _get_dog_breeds.
Proof.
  assert (Hgen : forall self,
             (is_loaded self = true -> model self <> None) ->
             (is_loaded (run ops self) = true -> model (run ops self) <> None)
             /\ model_path (run ops self) = model_path self).
  { induction ops as [|o rest IH]; intros self Hinv; cbn [run].
    - now split.
    - destruct (IH (step o self) (step_keeps_model_present o self Hinv))
        as [H1 H2].
      split; [exact H1|]. now rewrite H2, step_model_path. }
  destruct (Hgen (__init__ path)) as [H1 H2]; [discriminate|].
  split; [|split; [exact H2 | apply run_dog_breeds]].
  intros Hl. specialize (H1 Hl).
  destruct (model (run ops (__init__ path))) as [m|]; [now exists m | congruence].
Qed.

(** X2.  Neither [predict] nor [get_health_status] changes the service,
    whether they return or raise, and [load_model] never changes the path or
    the vocabulary. *)
Theorem reads_leave_service_unchanged (self : t) :
  (forall x, snd (predict x self) = self)
  /\ snd (get_health_status self) = self
  /\ (forall w, model_path (snd (load_model w self)) = model_path self
                /\ dog_breeds (snd (load_model w self)) = dog_breeds self).
Proof.
  split; [|split].
  - intros x. apply predict_keeps_service.
  - reflexivity.
  - intros w. split.
    + exact (step_model_path (OpLoad w) self).
    + exact (step_dog_breeds (OpLoad w) self).
Qed.

(** X3.  A load that succeeds on a service that already holds a model
    replaces it: afterwards [is_loaded] is true and every prediction is
    computed by the model just loaded, whatever was held before. *)
Theorem reload_replaces_model (w : World) (self : t) (m : Model) :
  path_exists w (model_path self) = true ->
  keras_load_model w (model_path self) = Ok m ->
  fst (load_model w self) = Ok true
  /\ model (snd (load_model w self)) = Some m
  /\ is_loaded (snd (load_model w self)) = true
  /\ (forall x,
         fst (predict x (snd (load_model w self)))
         = match predict_body m (dog_breeds self) x with
           | Ok r => Ok r
           | Raise e => Raise (PredictionError e)
           end).
Proof.
  intros He Hk. rewrite load_model_cases, He, Hk. cbn [negb fst snd].
  repeat split. intros x.
  now rewrite (predict_ready (set_is_loaded true (set_model (Some m) self))
                             m x eq_refl eq_refl).
Qed.

Lemma reload_replaces_model_witness :
  fst (predict []
         (snd (load_model (world_ok (stub_model [[1#10; 9#10]]))
                          (mkService "m.keras" (Some (stub_model [[9#10; 1#10]]))
                                     ["a"; "b"] true))))
  = Ok ("b", 9#10).
Proof.
  exact (proj2 (proj2 (proj2
           (reload_replaces_model
              (world_ok (stub_model [[1#10; 9#10]]))
              (mkService "m.keras" (Some (stub_model [[9#10; 1#10]]))
                         ["a"; "b"] true)
              (stub_model [[1#10; 9#10]]) eq_refl eq_refl))) []).
Defined.

(** X4.  A reload whose deserialization raises takes the service out of
    use: the model held before stays in the [model] attribute, yet every
    later prediction raises the not-loaded failure. *)
Theorem failed_reload_disables_predict (w : World) (self : t) :
  deserialization_raises w self = true ->
  model (snd (load_model w self)) = model self
  /\ (forall x,
         predict x (snd (load_model w self))
         = (Raise NotLoadedError, snd (load_model w self))).
Proof.
  intros Hw. unfold deserialization_raises in Hw.
  rewrite load_model_cases.
  destruct (path_exists w (model_path self)); cbn [negb andb] in *;
    [|discriminate].
  destruct (keras_load_model w (model_path self)); [discriminate|].
  cbn [snd]. split; [reflexivity|].
  intros x. apply predict_not_ready. now left.
Qed.

Lemma failed_reload_disables_predict_witness :
  model (snd (load_model world_corrupt
                (snd (load_model (world_ok (stub_model [[1]]))
                                 (__init__ "model.keras")))))
  = Some (stub_model [[1]])
  /\ fst (predict []
            (snd (load_model world_corrupt
                    (snd (load_model (world_ok (stub_model [[1]]))
                                     (__init__ "model.keras"))))))
     = Raise NotLoadedError.
Proof.
  destruct (failed_reload_disables_predict
              world_corrupt
              (snd (load_model (world_ok (stub_model [[1]])) (__init__ "model.keras")))
              eq_refl) as [Hm Hp].
  split; [exact Hm|]. now rewrite Hp.
Defined.

(** X5.  When the model answers with an empty batch or with an empty first
    score vector, [predict] raises a [RuntimeError] that carries numpy's
    message behind the fixed prefix; it never returns a result. *)
Theorem predict_on_empty_output (self : t) (m : Model) (x : Tensor) :
  is_loaded self = true -> model self = Some m ->
  (m x = Ok [] ->
   predict x self
   = (Raise (RuntimeError
               "Error during prediction: index 0 is out of bounds for axis 0 with size 0"),
      self))
  /\ (forall rest, m x = Ok ([] :: rest) ->
      predict x self
      = (Raise (RuntimeError
                  "Error during prediction: attempt to get argmax of an empty sequence"),
         self)).
Proof.
  intros Hl Hm. split; [intros Hout | intros rest Hout];
    rewrite (predict_ready self m x Hl Hm); unfold predict_body;
    rewrite Hout; reflexivity.
Qed.

Lemma predict_on_empty_output_witness :
  predict [] (mkService "m.keras" (Some (stub_model [[]])) _get_dog_breeds true)
  = (Raise (RuntimeError
              "Error during prediction: attempt to get argmax of an empty sequence"),
     mkService "m.keras" (Some (stub_model [[]])) _get_dog_breeds true).
Proof.
  exact (proj2 (predict_on_empty_output
                  (mkService "m.keras" (Some (stub_model [[]])) _get_dog_breeds true)
                  (stub_model [[]]) [] eq_refl eq_refl) [] eq_refl).
Defined.

(** X6.  [predict] reads the first score vector of the model's answer only:
    two answers with the same first vector give the same outcome, whatever
    further vectors the batch holds. *)
Theorem predict_reads_first_row_only
        (self : t) (m1 m2 : Model) (x : Tensor) (v : list Q)
        (rest1 rest2 : list (list Q)) :
  m1 x = Ok (v :: rest1) -> m2 x = Ok (v :: rest2) ->
  fst (predict x (set_model (Some m1) self))
  = fst (predict x (set_model (Some m2) self)).
Proof.
  intros H1 H2. destruct (is_loaded self) eqn:Hl.
  - rewrite (predict_ready (set_model (Some m1) self) m1 x Hl eq_refl),
            (predict_ready (set_model (Some m2) self) m2 x Hl eq_refl).
    unfold predict_body. rewrite H1, H2. reflexivity.
  - rewrite !predict_not_ready by now left. reflexivity.
Qed.

Lemma predict_reads_first_row_only_witness :
  fst (predict [] (set_model (Some (stub_model [[1#2; 1#4]; [0; 1]]))
                             (mkService "m" None ["a"; "b"] true)))
  = fst (predict [] (set_model (Some (stub_model [[1#2; 1#4]]))
                               (mkService "m" None ["a"; "b"] true))).
Proof.
  exact (predict_reads_first_row_only
           (mkService "m" None ["a"; "b"] true)
           (stub_model [[1#2; 1#4]; [0; 1]]) (stub_model [[1#2; 1#4]]) []
           [1#2; 1#4] [[0; 1]] [] eq_refl eq_refl).
Defined.

(** ** The upload endpoint *)

Import App.

Lemma service_ready_inv (ms : option ModelService.t) :
  service_ready ms = true -> exists svc, ms = Some svc /\ is_loaded svc = true.
Proof.
  destruct ms as [svc|]; cbn; [|discriminate]. intros H. now exists svc.
Qed.

Lemma predict_try_block_keeps_service (pil : Pillow) (svc : ModelService.t)
      (file : UploadFile) :
  snd (predict_try_block pil svc file) = svc.
Proof.
  unfold predict_try_block.
  destruct (read file) as [content|e]; [|reflexivity].
  destruct (_ <? _)%N; [reflexivity|].
  destruct (validate_image_format pil content) as [[|]|e]; try reflexivity.
  destruct (process_image_from_bytes pil content) as [t|e]; [|reflexivity].
  pose proof (predict_keeps_service (prepare_image_for_prediction t) svc) as Hk.
  destruct (predict (prepare_image_for_prediction t) svc) as [[[label conf]|e] svc'];
    cbn [snd] in *; assumption.
Qed.

(** The [try] block raises no [HTTPException] but with status 400. *)
Lemma predict_try_block_http_codes (pil : Pillow) (svc : ModelService.t)
      (file : UploadFile) (code : nat) (detail : string) :
  fst (predict_try_block pil svc file) = inr (HTTPException code detail) ->
  code = 400%nat.
Proof.
  unfold predict_try_block.
  destruct (read file) as [content|e]; [|discriminate].
  destruct (_ <? _)%N; [cbn; congruence|].
  destruct (validate_image_format pil content) as [[|]|e];
    try (cbn; congruence).
  destruct (process_image_from_bytes pil content) as [t|e]; [|discriminate].
  destruct (predict (prepare_image_for_prediction t) svc) as [[[label conf]|e] svc'];
    discriminate.
Qed.

Lemma predict_dog_breed_ready (pil : Pillow) (set_order : list string)
      (svc : ModelService.t) (file : UploadFile) :
  is_loaded svc = true -> in_supported_formats (content_type file) = true ->
  predict_dog_breed pil set_order (Some svc) file =
    (match fst (predict_try_block pil svc file) with
     | inl body => Returned 200 body
     | inr (HTTPException code detail) => Raised (HTTPException code detail)
     | inr (Uncaught e) =>
         Raised (HTTPException 500
                   ("Internal server error during prediction: " ++ exn_msg e))
     end, Some svc).
Proof.
  intros Hl Hf. unfold predict_dog_breed. rewrite Hl, Hf. cbn [negb].
  pose proof (predict_try_block_keeps_service pil svc file) as Hk.
  destruct (predict_try_block pil svc file) as [[body|[code detail|e]] svc'];
    cbn [fst snd] in *; now subst.
Qed.

Lemma predict_dog_breed_not_ready (pil : Pillow) (set_order : list string)
      (model_service : option ModelService.t) (file : UploadFile) :
  service_ready model_service = false ->
  predict_dog_breed pil set_order model_service file
  = (Raised (HTTPException 503
               "Model service not available. Please check service health."),
     model_service).
Proof.
  intros Hr. unfold predict_dog_breed.
  destruct model_service as [svc|]; [|reflexivity].
  cbn [service_ready] in Hr. now rewrite Hr.
Qed.

Lemma predict_dog_breed_unsupported (pil : Pillow) (set_order : list string)
      (svc : ModelService.t) (file : UploadFile) :
  is_loaded svc = true ->
  in_supported_formats (content_type file) = false ->
  predict_dog_breed pil set_order (Some svc) file
  = (Raised (HTTPException 400
               ("Unsupported file format. Supported formats: "
                ++ String.concat ", " set_order)),
     Some svc).
Proof.
  intros Hl Hf. unfold predict_dog_breed. now rewrite Hl, Hf.
Qed.

Lemma predict_dog_breed_keeps_service (pil : Pillow) (set_order : list string)
      (model_service : option ModelService.t) (file : UploadFile) :
  snd (predict_dog_breed pil set_order model_service file) = model_service.
Proof.
  destruct (service_ready model_service) eqn:Hr.
  - destruct (service_ready_inv model_service Hr) as (svc & -> & Hl).
    destruct (in_supported_formats (content_type file)) eqn:Hf.
    + now rewrite (predict_dog_breed_ready pil set_order svc file Hl Hf).
    + now rewrite (predict_dog_breed_unsupported pil set_order svc file Hl Hf).
  - now rewrite (predict_dog_breed_not_ready pil set_order model_service file Hr).
Qed.

(** X7.  While no service exists or the service is not loaded, every upload
    is refused with status 503 before the request is looked at: neither the
    content type nor the file content matters, and the file is not
    examined. *)
Theorem upload_refused_while_not_ready
        (pil : Pillow) (set_order : list string)
        (model_service : option ModelService.t) (file : UploadFile) :
  service_ready model_service = false ->
  predict_dog_breed pil set_order model_service file
  = (Raised (HTTPException 503
               "Model service not available. Please check service health."),
     model_service).
Proof.
  exact (predict_dog_breed_not_ready pil set_order model_service file).
Qed.

Lemma upload_refused_while_not_ready_witness :
  predict_dog_breed toy_pillow SUPPORTED_FORMATS
    (Some (__init__ "model.keras"))
    (mkUpload (Some "image/png") (Ok [x50; x00; xff]))
  = (Raised (HTTPException 503
               "Model service not available. Please check service health."),
     Some (__init__ "model.keras")).
Proof.
  exact (upload_refused_while_not_ready toy_pillow SUPPORTED_FORMATS
           (Some (__init__ "model.keras"))
           (mkUpload (Some "image/png") (Ok [x50; x00; xff])) eq_refl).
Defined.

(** X8.  On a loaded service an upload whose declared content type is
    absent or is not exactly one of [image/jpeg], [image/jpg], [image/png]
    is refused with status 400 without being read, even when its bytes are
    a valid image; the comparison is case-sensitive. *)
Theorem upload_with_unsupported_type_refused
        (pil : Pillow) (set_order : list string)
        (svc : ModelService.t) (file : UploadFile) :
  is_loaded svc = true ->
  in_supported_formats (content_type file) = false ->
  predict_dog_breed pil set_order (Some svc) file
  = (Raised (HTTPException 400
               ("Unsupported file format. Supported formats: "
                ++ String.concat ", " set_order)),
     Some svc)
  /\ in_supported_formats None = false
  /\ in_supported_formats (Some "image/PNG") = false
  /\ (forall ct, in_supported_formats ct = true <->
                 ct = Some "image/jpeg" \/ ct = Some "image/jpg"
                 \/ ct = Some "image/png").
Proof.
  intros Hl Hf. split; [|split; [reflexivity|split; [reflexivity|]]].
  - now apply predict_dog_breed_unsupported.
  - intros [ct|]; cbn [in_supported_formats SUPPORTED_FORMATS existsb].
    + rewrite !orb_true_iff, !String.eqb_eq. split.
      * intros [->|[->|[->|H]]]; [tauto | tauto | tauto | discriminate].
      * intros [H|[H|H]]; injection H as ->; tauto.
    + split; [discriminate|]. intros [H|[H|H]]; discriminate.
Qed.

Lemma upload_with_unsupported_type_refused_witness :
  fst (predict_dog_breed toy_pillow SUPPORTED_FORMATS
         (Some (mkService "m.keras" (Some (stub_model [[1]])) _get_dog_breeds true))
         (mkUpload (Some "image/gif") (Ok [x50; x00; xff])))
  = Raised (HTTPException 400
              "Unsupported file format. Supported formats: image/jpeg, image/jpg, image/png").
Proof.
  destruct (upload_with_unsupported_type_refused toy_pillow SUPPORTED_FORMATS
              (mkService "m.keras" (Some (stub_model [[1]])) _get_dog_breeds true)
              (mkUpload (Some "image/gif") (Ok [x50; x00; xff]))
              eq_refl eq_refl) as [H _].
  now rewrite H.
Defined.

(** X9.  On a loaded service an upload of a supported type with more than
    10 * 1024 * 1024 bytes is refused with status 400; Pillow and the model
    are not consulted. *)
Theorem upload_too_large_refused
        (pil : Pillow) (set_order : list string)
        (svc : ModelService.t) (file : UploadFile) (content : list byte) :
  is_loaded svc = true ->
  in_supported_formats (content_type file) = true ->
  read file = Ok content ->
  (10485760 < N.of_nat (List.length content))%N ->
  predict_dog_breed pil set_order (Some svc) file
  = (Raised (HTTPException 400 "File too large. Maximum size allowed: 10.0MB"),
     Some svc).
Proof.
  intros Hl Hf Hr Hsize.
  rewrite (predict_dog_breed_ready pil set_order svc file Hl Hf).
  unfold predict_try_block. rewrite Hr.
  assert (Hb : (MAX_FILE_SIZE <? N.of_nat (List.length content))%N = true).
  { apply N.ltb_lt. exact Hsize. }
  now rewrite Hb.
Qed.

Lemma upload_too_large_refused_witness :
  predict_dog_breed toy_pillow SUPPORTED_FORMATS
    (Some (mkService "m.keras" (Some (stub_model [[1]])) _get_dog_breeds true))
    (mkUpload (Some "image/png") (Ok (repeat x50 (N.to_nat 10485761))))
  = (Raised (HTTPException 400 "File too large. Maximum size allowed: 10.0MB"),
     Some (mkService "m.keras" (Some (stub_model [[1]])) _get_dog_breeds true)).
Proof.
  assert (Hsize : (10485760
                   < N.of_nat (List.length (repeat x50 (N.to_nat 10485761))))%N).
  { rewrite repeat_length, N2Nat.id. reflexivity. }
  exact (upload_too_large_refused toy_pillow SUPPORTED_FORMATS
           (mkService "m.keras" (Some (stub_model [[1]])) _get_dog_breeds true)
           (mkUpload (Some "image/png") (Ok (repeat x50 (N.to_nat 10485761))))
           (repeat x50 (N.to_nat 10485761)) eq_refl eq_refl eq_refl Hsize).
Defined.

Lemma size_check_passes (content : list byte) :
  (N.of_nat (List.length content) <= 10485760)%N ->
  (MAX_FILE_SIZE <? N.of_nat (List.length content))%N = false.
Proof. intros H. apply N.ltb_ge. exact H. Qed.

(** X10.  On a loaded service an upload of a supported type and of at most
    10 * 1024 * 1024 bytes that Pillow cannot open or cannot verify is
    refused with status 400, not 500; the model is not run. *)
Theorem upload_of_invalid_image_refused
        (pil : Pillow) (set_order : list string)
        (svc : ModelService.t) (file : UploadFile) (content : list byte) :
  is_loaded svc = true ->
  in_supported_formats (content_type file) = true ->
  read file = Ok content ->
  (N.of_nat (List.length content) <= 10485760)%N ->
  validate_image_format pil content = Ok false ->
  predict_dog_breed pil set_order (Some svc) file
  = (Raised (HTTPException 400 "Invalid image file or corrupted image"),
     Some svc).
Proof.
  intros Hl Hf Hr Hsize Hv.
  rewrite (predict_dog_breed_ready pil set_order svc file Hl Hf).
  unfold predict_try_block.
  now rewrite Hr, (size_check_passes content Hsize), Hv.
Qed.

Lemma upload_of_invalid_image_refused_witness :
  predict_dog_breed toy_pillow SUPPORTED_FORMATS
    (Some (mkService "m.keras" (Some (stub_model [[1]])) _get_dog_breeds true))
    (mkUpload (Some "image/jpeg") (Ok []))
  = (Raised (HTTPException 400 "Invalid image file or corrupted image"),
     Some (mkService "m.keras" (Some (stub_model [[1]])) _get_dog_breeds true)).
Proof.
  apply (upload_of_invalid_image_refused toy_pillow SUPPORTED_FORMATS
           (mkService "m.keras" (Some (stub_model [[1]])) _get_dog_breeds true)
           (mkUpload (Some "image/jpeg") (Ok [])) []);
    [reflexivity | reflexivity | reflexivity | cbn; lia | reflexivity].
Defined.

(** X11.  Every call of the upload endpoint ends in a response: it returns
    with status 200 or raises an [HTTPException] with status 400, 500 or
    503; no other exception leaves it, and the global service is the same
    afterwards. *)
Theorem upload_always_answered
        (pil : Pillow) (set_order : list string)
        (model_service : option ModelService.t) (file : UploadFile) :
  (exists code,
      status_of (fst (predict_dog_breed pil set_order model_service file))
      = Some code
      /\ In code [200; 400; 500; 503]%nat)
  /\ snd (predict_dog_breed pil set_order model_service file) = model_service.
Proof.
  destruct (service_ready model_service) eqn:Hr.
  - destruct (service_ready_inv model_service Hr) as (svc & -> & Hl).
    destruct (in_supported_formats (content_type file)) eqn:Hf.
    + rewrite (predict_dog_breed_ready pil set_order svc file Hl Hf).
      split; [|reflexivity]. cbn [fst].
      pose proof (predict_try_block_http_codes pil svc file) as Hcode.
      destruct (fst (predict_try_block pil svc file)) as [body|[code detail|e]].
      * exists 200%nat. cbn. tauto.
      * exists code. rewrite (Hcode code detail eq_refl). cbn. tauto.
      * exists 500%nat. cbn. tauto.
    + rewrite (predict_dog_breed_unsupported pil set_order svc file Hl Hf).
      split; [|reflexivity]. exists 400%nat. cbn. tauto.
  - rewrite (predict_dog_breed_not_ready pil set_order model_service file Hr).
    split; [|reflexivity]. exists 503%nat. cbn. tauto.
Qed.

Lemma predict_dog_breed_returned
        (pil : Pillow) (set_order : list string)
        (model_service : option ModelService.t) (file : UploadFile)
        (code : nat) (body : dict) :
  fst (predict_dog_breed pil set_order model_service file) = Returned code body ->
  code = 200%nat
  /\ exists svc content image_tensor label confidence,
       model_service = Some svc
       /\ is_loaded svc = true
       /\ in_supported_formats (content_type file) = true
       /\ read file = Ok content
       /\ (N.of_nat (List.length content) <= 10485760)%N
       /\ validate_image_format pil content = Ok true
       /\ process_image_from_bytes pil content = Ok image_tensor
       /\ predict [image_tensor] svc = (Ok (label, confidence), svc)
       /\ body = [("status", VStr "success");
                  ("predicted_breed", VStr label);
                  ("confidence", VFloat (py_round confidence 4));
                  ("message", VStr "Prediction successful")].
Proof.
  intros Hret.
  destruct (service_ready model_service) eqn:Hr.
  2:{ rewrite (predict_dog_breed_not_ready pil set_order model_service file Hr)
        in Hret. discriminate. }
  destruct (service_ready_inv model_service Hr) as (svc & -> & Hl).
  destruct (in_supported_formats (content_type file)) eqn:Hf.
  2:{ rewrite (predict_dog_breed_unsupported pil set_order svc file Hl Hf)
        in Hret. discriminate. }
  rewrite (predict_dog_breed_ready pil set_order svc file Hl Hf) in Hret.
  cbn [fst] in Hret. unfold predict_try_block in Hret.
  destruct (read file) as [content|e] eqn:Hread; [|discriminate].
  destruct (MAX_FILE_SIZE <? N.of_nat (List.length content))%N eqn:Hsize;
    [discriminate|].
  destruct (validate_image_format pil content) as [[|]|e] eqn:Hv;
    [|discriminate|discriminate].
  destruct (process_image_from_bytes pil content) as [t|e] eqn:Hp; [|discriminate].
  pose proof (predict_keeps_service (prepare_image_for_prediction t) svc) as Hk.
  unfold prepare_image_for_prediction in *.
  destruct (predict [t] svc) as [[[label conf]|e] svc'] eqn:Hpred;
    [|discriminate].
  cbn [fst snd] in *. subst svc'. injection Hret as <- <-.
  split; [reflexivity|].
  exists svc, content, t, label, conf.
  repeat split; try reflexivity; try assumption.
  apply N.ltb_ge in Hsize. exact Hsize.
Qed.

(** X12.  The endpoint returns a body only when every check passed: the
    service is loaded, the content type is supported, the content was read,
    is at most 10 * 1024 * 1024 bytes long, was validated and preprocessed,
    and the model service returned a label and a confidence for the
    one-image batch.  The status is then 200 and the body holds, in this
    order, [status] = success, the label, the confidence rounded to four
    decimals, and the message. *)
Theorem upload_success_body
        (pil : Pillow) (set_order : list string)
        (model_service : option ModelService.t) (file : UploadFile)
        (code : nat) (body : dict) :
  fst (predict_dog_breed pil set_order model_service file) = Returned code body ->
  code = 200%nat
  /\ exists svc content image_tensor label confidence,
       model_service = Some svc
       /\ is_loaded svc = true
       /\ in_supported_formats (content_type file) = true
       /\ read file = Ok content
       /\ (N.of_nat (List.length content) <= 10485760)%N
       /\ validate_image_format pil content = Ok true
       /\ process_image_from_bytes pil content = Ok image_tensor
       /\ predict [image_tensor] svc = (Ok (label, confidence), svc)
       /\ body = [("status", VStr "success");
                  ("predicted_breed", VStr label);
                  ("confidence", VFloat (py_round confidence 4));
                  ("message", VStr "Prediction successful")].
Proof.
  exact (predict_dog_breed_returned pil set_order model_service file code body).
Qed.

Lemma upload_success_body_witness :
  200%nat = 200%nat
  /\ exists svc content image_tensor label confidence,
       Some (mkService "m.keras" (Some (stub_model [[1#10; 7#10; 2#10]]))
                       ["a"; "b"; "c"] true) = Some svc
       /\ is_loaded svc = true
       /\ in_supported_formats (Some "image/png") = true
       /\ Ok [x50; x00; xff; x80] = Ok content
       /\ (N.of_nat (List.length content) <= 10485760)%N
       /\ validate_image_format toy_pillow content = Ok true
       /\ process_image_from_bytes toy_pillow content = Ok image_tensor
       /\ predict [image_tensor] svc = (Ok (label, confidence), svc)
       /\ [("status", VStr "success");
           ("predicted_breed", VStr "b");
           ("confidence", VFloat (py_round (7#10) 4));
           ("message", VStr "Prediction successful")]
          = [("status", VStr "success");
             ("predicted_breed", VStr label);
             ("confidence", VFloat (py_round confidence 4));
             ("message", VStr "Prediction successful")].
Proof.
  exact (upload_success_body toy_pillow SUPPORTED_FORMATS
           (Some (mkService "m.keras" (Some (stub_model [[1#10; 7#10; 2#10]]))
                            ["a"; "b"; "c"] true))
           (mkUpload (Some "image/png") (Ok [x50; x00; xff; x80]))
           200
           [("status", VStr "success");
            ("predicted_breed", VStr "b");
            ("confidence", VFloat (py_round (7#10) 4));
            ("message", VStr "Prediction successful")]
           eq_refl).
Defined.

Lemma process_image_load_fails (pil : Pillow) (content : list byte)
      (image : Image) (e : exn) :
  Image_open pil content = Ok image -> im_load image = Raise e ->
  process_image_from_bytes pil content = Raise e.
Proof.
  intros Hopen Hload. unfold process_image_from_bytes. rewrite Hopen.
  cbn [rbind]. destruct image as [m w h pal ld].
  cbn [im_load im_mode] in *. subst ld. destruct m; reflexivity.
Qed.

(** X13.  Validation does not decode the pixels: an upload that Pillow opens
    and verifies but whose pixel data then fails to decode passes the 400
    check and is answered with status 500, the decoder's message behind the
    fixed prefix. *)
Theorem upload_with_undecodable_pixels_is_500
        (pil : Pillow) (set_order : list string)
        (svc : ModelService.t) (file : UploadFile) (content : list byte)
        (image : Image) (e : exn) :
  is_loaded svc = true ->
  in_supported_formats (content_type file) = true ->
  read file = Ok content ->
  (N.of_nat (List.length content) <= 10485760)%N ->
  Image_open pil content = Ok image ->
  Image_verify pil image = Ok tt ->
  im_load image = Raise e ->
  validate_image_format pil content = Ok true
  /\ predict_dog_breed pil set_order (Some svc) file
     = (Raised (HTTPException 500
                  ("Internal server error during prediction: " ++ exn_msg e)),
        Some svc).
Proof.
  intros Hl Hf Hr Hsize Hopen Hver Hload.
  assert (Hv : validate_image_format pil content = Ok true).
  { unfold validate_image_format. rewrite Hopen. cbn [rbind]. now rewrite Hver. }
  split; [exact Hv|].
  rewrite (predict_dog_breed_ready pil set_order svc file Hl Hf).
  unfold predict_try_block.
  rewrite Hr, (size_check_passes content Hsize), Hv.
  now rewrite (process_image_load_fails pil content image e Hopen Hload).
Qed.

Lemma upload_with_undecodable_pixels_is_500_witness :
  validate_image_format pillow_truncated_data [xff; xd8; xff] = Ok true
  /\ predict_dog_breed pillow_truncated_data SUPPORTED_FORMATS
       (Some (mkService "m.keras" (Some (stub_model [[1]])) _get_dog_breeds true))
       (mkUpload (Some "image/jpeg") (Ok [xff; xd8; xff]))
     = (Raised (HTTPException 500
                  "Internal server error during prediction: image file is truncated"),
        Some (mkService "m.keras" (Some (stub_model [[1]])) _get_dog_breeds true)).
Proof.
  apply (upload_with_undecodable_pixels_is_500
           pillow_truncated_data SUPPORTED_FORMATS
           (mkService "m.keras" (Some (stub_model [[1]])) _get_dog_breeds true)
           (mkUpload (Some "image/jpeg") (Ok [xff; xd8; xff])) [xff; xd8; xff]
           (mkImage RGB 1 1 (fun i => (i, i, i))
                    (Raise (mkExn "OSError" "image file is truncated")))
           (mkExn "OSError" "image file is truncated"));
    [reflexivity | reflexivity | reflexivity | cbn; lia
     | reflexivity | reflexivity | reflexivity].
Defined.

(** X14.  When the model raises on a valid upload, the client receives
    status 500 and a detail that carries both fixed prefixes, the
    endpoint's and [predict]'s, before the message of the cause. *)
Theorem upload_model_failure_is_500
        (pil : Pillow) (set_order : list string)
        (svc : ModelService.t) (m : Model) (file : UploadFile)
        (content : list byte) (image_tensor : Tensor3) (cause : exn) :
  is_loaded svc = true -> model svc = Some m ->
  in_supported_formats (content_type file) = true ->
  read file = Ok content ->
  (N.of_nat (List.length content) <= 10485760)%N ->
  validate_image_format pil content = Ok true ->
  process_image_from_bytes pil content = Ok image_tensor ->
  m [image_tensor] = Raise cause ->
  predict_dog_breed pil set_order (Some svc) file
  = (Raised (HTTPException 500
               ("Internal server error during prediction: "
                ++ "Error during prediction: " ++ exn_msg cause)),
     Some svc).
Proof.
  intros Hl Hm Hf Hr Hsize Hv Hp Hcause.
  rewrite (predict_dog_breed_ready pil set_order svc file Hl Hf).
  unfold predict_try_block.
  rewrite Hr, (size_check_passes content Hsize), Hv, Hp.
  unfold prepare_image_for_prediction.
  rewrite (predict_ready svc m [image_tensor] Hl Hm).
  unfold predict_body. rewrite Hcause. reflexivity.
Qed.

Lemma upload_model_failure_is_500_witness :
  fst (predict_dog_breed toy_pillow SUPPORTED_FORMATS
         (Some (mkService "m.keras"
                          (Some (failing_model (ValueError "shape mismatch")))
                          _get_dog_breeds true))
         (mkUpload (Some "image/png") (Ok [x50; x00; xff; x80])))
  = Raised (HTTPException 500
              "Internal server error during prediction: Error during prediction: shape mismatch").
Proof.
  assert (Hp : exists t, process_image_from_bytes toy_pillow [x50; x00; xff; x80]
                         = Ok t).
  { eexists. reflexivity. }
  destruct Hp as [t Hp].
  rewrite (upload_model_failure_is_500 toy_pillow SUPPORTED_FORMATS
             (mkService "m.keras"
                        (Some (failing_model (ValueError "shape mismatch")))
                        _get_dog_breeds true)
             (failing_model (ValueError "shape mismatch"))
             (mkUpload (Some "image/png") (Ok [x50; x00; xff; x80]))
             [x50; x00; xff; x80] t (ValueError "shape mismatch")
             eq_refl eq_refl eq_refl eq_refl ltac:(cbn; lia) eq_refl Hp eq_refl).
  reflexivity.
Defined.

(** ** Rounding of the confidence *)

Lemma py_round4_nearest (x : Q) :
  exists n : Z,
    py_round x 4 = inject_Z n / inject_Z 10000
    /\ x * inject_Z 10000 - (1 # 2) <= inject_Z n
    /\ inject_Z n <= x * inject_Z 10000 + (1 # 2).
Proof.
  unfold py_round. change (10 ^ Z.of_nat 4)%Z with 10000%Z.
  cbv zeta. set (y := x * inject_Z 10000).
  pose proof (Qfloor_le y) as Hlo. pose proof (Qlt_floor y) as Hhi.
  rewrite inject_Z_plus in Hhi. change (inject_Z 1) with 1 in Hhi.
  destruct (Qltb (y - inject_Z (Qfloor y)) (1 # 2)) eqn:E1.
  - apply Qltb_true in E1. eexists. split; [reflexivity|]. lra.
  - apply Qltb_false in E1.
    destruct (Qltb (1 # 2) (y - inject_Z (Qfloor y))) eqn:E2.
    + apply Qltb_true in E2. eexists. split; [reflexivity|].
      rewrite inject_Z_plus. change (inject_Z 1) with 1. lra.
    + apply Qltb_false in E2.
      destruct (Z.even (Qfloor y)); eexists; (split; [reflexivity|]);
        rewrite ?inject_Z_plus; change (inject_Z 1) with 1; lra.
Qed.

Lemma py_round4_close (x : Q) :
  x - (1 # 20000) <= py_round x 4 /\ py_round x 4 <= x + (1 # 20000).
Proof.
  destruct (py_round4_nearest x) as (n & -> & H1 & H2).
  change (inject_Z 10000) with (10000 # 1) in *.
  unfold Qdiv. change (/ (10000 # 1)) with (1 # 10000).
  split; lra.
Qed.

Lemma py_round4_unit (x : Q) :
  0 <= x -> x <= 1 -> 0 <= py_round x 4 /\ py_round x 4 <= 1.
Proof.
  intros H0 H1. destruct (py_round4_nearest x) as (n & -> & Hlo & Hhi).
  change (inject_Z 10000) with (10000 # 1) in *.
  assert (Hn0 : (0 <= n)%Z).
  { assert (H : inject_Z (-1) < inject_Z n)
      by (change (inject_Z (-1)) with (-1 # 1); lra).
    rewrite <- Zlt_Qlt in H. lia. }
  assert (Hn1 : (n <= 10000)%Z).
  { assert (H : inject_Z n < inject_Z 10001)
      by (change (inject_Z 10001) with (10001 # 1); lra).
    rewrite <- Zlt_Qlt in H. lia. }
  rewrite Zle_Qle in Hn0, Hn1.
  change (inject_Z 0) with 0 in Hn0.
  change (inject_Z 10000) with (10000 # 1) in Hn1.
  unfold Qdiv. change (/ (10000 # 1)) with (1 # 10000).
  split; lra.
Qed.

(** X15.  The confidence in a returned body is a multiple of 0.0001 within
    0.00005 of the confidence [predict] returned for the upload, and lies in
    [0, 1] whenever that confidence does. *)
Theorem upload_confidence_is_rounded
        (pil : Pillow) (set_order : list string)
        (model_service : option ModelService.t) (file : UploadFile)
        (code : nat) (body : dict) :
  fst (predict_dog_breed pil set_order model_service file) = Returned code body ->
  exists svc content image_tensor label confidence n,
    model_service = Some svc
    /\ read file = Ok content
    /\ process_image_from_bytes pil content = Ok image_tensor
    /\ predict [image_tensor] svc = (Ok (label, confidence), svc)
    /\ dict_get body "confidence" = Some (VFloat (inject_Z n / inject_Z 10000))
    /\ confidence - (1 # 20000) <= inject_Z n / inject_Z 10000
    /\ inject_Z n / inject_Z 10000 <= confidence + (1 # 20000)
    /\ (0 <= confidence -> confidence <= 1 ->
        0 <= inject_Z n / inject_Z 10000 /\ inject_Z n / inject_Z 10000 <= 1).
Proof.
  intros Hret.
  destruct (predict_dog_breed_returned pil set_order model_service file code body Hret)
    as (_ & svc & content & t & label & conf
        & -> & _ & _ & Hread & _ & _ & Hp & Hpred & ->).
  destruct (py_round4_nearest conf) as (n & Hn & _).
  pose proof (py_round4_close conf) as [Hc1 Hc2].
  pose proof (py_round4_unit conf) as Hu.
  rewrite Hn in Hc1, Hc2, Hu.
  exists svc, content, t, label, conf, n.
  repeat split; try assumption; try (now apply Hu).
  cbn [dict_get String.eqb Ascii.eqb Bool.eqb]. now rewrite Hn.
Qed.

Lemma upload_confidence_is_rounded_witness :
  exists svc content image_tensor label confidence n,
    Some (mkService "m.keras" (Some (stub_model [[1#3; 2#3]])) ["a"; "b"] true)
    = Some svc
    /\ Ok [x50; x00; xff; x80] = Ok content
    /\ process_image_from_bytes toy_pillow content = Ok image_tensor
    /\ predict [image_tensor] svc = (Ok (label, confidence), svc)
    /\ dict_get [("status", VStr "success");
                 ("predicted_breed", VStr "b");
                 ("confidence", VFloat (py_round (2#3) 4));
                 ("message", VStr "Prediction successful")] "confidence"
       = Some (VFloat (inject_Z n / inject_Z 10000))
    /\ confidence - (1 # 20000) <= inject_Z n / inject_Z 10000
    /\ inject_Z n / inject_Z 10000 <= confidence + (1 # 20000)
    /\ (0 <= confidence -> confidence <= 1 ->
        0 <= inject_Z n / inject_Z 10000 /\ inject_Z n / inject_Z 10000 <= 1).
Proof.
  exact (upload_confidence_is_rounded toy_pillow SUPPORTED_FORMATS
           (Some (mkService "m.keras" (Some (stub_model [[1#3; 2#3]]))
                            ["a"; "b"] true))
           (mkUpload (Some "image/png") (Ok [x50; x00; xff; x80]))
           200
           [("status", VStr "success");
            ("predicted_breed", VStr "b");
            ("confidence", VFloat (py_round (2#3) 4));
            ("message", VStr "Prediction successful")]
           eq_refl).
Defined.

(** ** Health endpoint and start-up *)

(** X16.  The health endpoint answers 200 whenever a service object exists.
    The [status] entry it first writes ([success] or [warning]) is
    overwritten by the [status] entry of the service's own health dictionary,
    so a client reads [healthy] or [model_not_loaded] there and never
    [success] or [warning]; the other entries are the message and the
    service's loaded flag, path and number of classes.  Without a service
    object the answer is 503 with [status] = [error]. *)
Theorem health_check_status_is_overwritten :
  (forall svc : ModelService.t,
      exists body,
        health_check (Some svc) = Returned 200 body
        /\ map fst body
           = ["status"; "message"; "model_loaded"; "model_path"; "num_classes"]
        /\ dict_get body "status"
           = Some (VStr (if is_loaded svc then "healthy" else "model_not_loaded"))
        /\ dict_get body "status" <> Some (VStr "success")
        /\ dict_get body "status" <> Some (VStr "warning")
        /\ dict_get body "message" = Some (VStr "Service is running")
        /\ dict_get body "model_loaded" = Some (VBool (is_loaded svc))
        /\ dict_get body "model_path" = Some (VStr (model_path svc))
        /\ dict_get body "num_classes"
           = Some (VInt (List.length (dog_breeds svc))))
  /\ health_check None
     = Returned 503 [("status", VStr "error");
                     ("message", VStr "Model service not initialized");
                     ("model_loaded", VBool false)].
Proof.
  split; [|reflexivity].
  intros svc. eexists. split; [reflexivity|].
  cbn. repeat split; try reflexivity; destruct (is_loaded svc); discriminate.
Qed.

Lemma serve_not_ready (pil : Pillow) (set_order : list string)
      (ms : option ModelService.t) (files : list UploadFile) :
  service_ready ms = false ->
  serve pil set_order ms files
  = (map (fun _ =>
            Raised (HTTPException 503
                      "Model service not available. Please check service health."))
         files, ms).
Proof.
  intros Hr. induction files as [|f rest IH]; cbn [serve map]; [reflexivity|].
  rewrite (predict_dog_breed_not_ready pil set_order ms f Hr).
  now rewrite IH.
Qed.

(** X17.  Start-up always leaves a service object behind, created for the
    model file beside the script's directory, whether or not the model could
    be loaded: the service is loaded exactly when the file exists and
    deserializes, and the health endpoint answers 200 in both cases with the
    loaded flag telling which. *)
Theorem startup_always_creates_service (w : World) (current_dir : string) :
  exists svc body,
    startup_event w current_dir = Some svc
    /\ model_path svc = os_path_join current_dir MODEL_PATH
    /\ dog_breeds svc = _get_dog_breeds
    /\ (is_loaded svc = true <->
        path_exists w (os_path_join current_dir MODEL_PATH) = true
        /\ is_ok (keras_load_model w (os_path_join current_dir MODEL_PATH)) = true)
    /\ (is_loaded svc = true -> exists m, model svc = Some m)
    /\ health_check (startup_event w current_dir) = Returned 200 body
    /\ dict_get body "model_loaded" = Some (VBool (is_loaded svc)).
Proof.
  unfold startup_event.
  set (path := os_path_join current_dir MODEL_PATH).
  pose proof (load_model_cases w (__init__ path)) as Hc.
  cbn [model_path __init__] in Hc.
  destruct (load_model w (__init__ path)) as [r svc] eqn:Hload.
  destruct (path_exists w path) eqn:He; cbn [negb] in Hc.
  - destruct (keras_load_model w path) as [m|e] eqn:Hk;
      injection Hc as -> ->; eexists; eexists; cbn;
      repeat split; try reflexivity; try tauto; try discriminate;
      try (intros [_ H]; discriminate H).
    intros _. now exists m.
  - injection Hc as -> ->. eexists. eexists. cbn.
    repeat split; try reflexivity; try discriminate.
    intros [H _]; discriminate H.
Qed.

(** X18.  Handling uploads never changes the service, so readiness is
    settled at start-up: when the model could not be loaded then, every
    later upload is answered 503 however many are sent, and the load is
    never attempted again. *)
Theorem uploads_never_reload
        (pil : Pillow) (set_order : list string) (w : World)
        (current_dir : string) (files : list UploadFile) :
  (forall ms, snd (serve pil set_order ms files) = ms
              /\ List.length (fst (serve pil set_order ms files))
                 = List.length files)
  /\ (path_exists w (os_path_join current_dir MODEL_PATH)
      && is_ok (keras_load_model w (os_path_join current_dir MODEL_PATH)) = false ->
      Forall (fun o => status_of o = Some 503%nat)
             (fst (serve pil set_order (startup_event w current_dir) files))).
Proof.
  split.
  - induction files as [|f rest IH]; intros ms; cbn [serve]; [now split|].
    pose proof (predict_dog_breed_keeps_service pil set_order ms f) as Hk.
    destruct (predict_dog_breed pil set_order ms f) as [o ms'].
    cbn [snd] in Hk. subst ms'.
    destruct (IH ms) as [H1 H2].
    destruct (serve pil set_order ms rest) as [os ms''].
    cbn [fst snd List.length] in *. split; congruence.
  - intros Hfail.
    assert (Hr : service_ready (startup_event w current_dir) = false).
    { unfold startup_event.
      set (path := os_path_join current_dir MODEL_PATH) in *.
      pose proof (load_model_cases w (__init__ path)) as Hc.
      cbn [model_path __init__] in Hc.
      destruct (load_model w (__init__ path)) as [r svc].
      destruct (path_exists w path); cbn [negb andb] in *.
      - destruct (keras_load_model w path); [discriminate|].
        now injection Hc as -> ->.
      - now injection Hc as -> ->. }
    rewrite (serve_not_ready pil set_order _ files Hr). cbn [fst].
    apply Forall_map, Forall_forall. intros f _. reflexivity.
Qed.

(** ** Preprocessing of uniform and target-sized images *)

Import FilePipeline ValidateSetup.

Lemma scaler_below_size (i in_size out_size : nat) :
  (i < out_size)%nat -> (0 < in_size)%nat ->
  scaler i in_size out_size < inject_Z (Z.of_nat in_size).
Proof.
  intros Hi Hin. unfold scaler.
  assert (Ho : 0 < inject_Z (Z.of_nat out_size)).
  { change 0 with (inject_Z 0). rewrite <- Zlt_Qlt. lia. }
  assert (Hn : 0 < inject_Z (Z.of_nat in_size)).
  { change 0 with (inject_Z 0). rewrite <- Zlt_Qlt. lia. }
  assert (Hi' : inject_Z (Z.of_nat i) + 1 <= inject_Z (Z.of_nat out_size)).
  { change 1 with (inject_Z 1). rewrite <- inject_Z_plus, <- Zle_Qle. lia. }
  set (a := inject_Z (Z.of_nat i)) in *.
  set (n := inject_Z (Z.of_nat in_size)) in *.
  set (o := inject_Z (Z.of_nat out_size)) in *.
  assert (Hs : 0 < n / o) by (apply Qlt_shift_div_l; lra).
  assert (Hso : (n / o) * o == n) by (field; lra).
  set (s := n / o) in *.
  nra.
Qed.

Lemma interpolation_indices_in_range (i in_size out_size : nat) :
  (i < out_size)%nat -> (0 < in_size)%nat ->
  (lower (compute_interpolation_weights i in_size out_size) < in_size)%nat
  /\ (upper (compute_interpolation_weights i in_size out_size) < in_size)%nat.
Proof.
  intros Hi Hin. unfold compute_interpolation_weights. cbn [lower upper].
  pose proof (scaler_below_size i in_size out_size Hi Hin) as Hlt.
  pose proof (Qfloor_le (scaler i in_size out_size)) as Hfl.
  assert (Hf : (Qfloor (scaler i in_size out_size) < Z.of_nat in_size)%Z).
  { rewrite Zlt_Qlt. lra. }
  split; lia.
Qed.

Lemma nth_map_seq {A} (f : nat -> A) (n i : nat) (d : A) :
  (i < n)%nat -> nth i (map f (seq 0 n)) d = f i.
Proof.
  intros Hi. rewrite (nth_indep _ d (f 0%nat)) by (now rewrite length_map, length_seq).
  rewrite map_nth. now rewrite seq_nth.
Qed.

Lemma at3_normalized (w h : nat) (px : nat -> nat -> byte * byte * byte)
      (y x c : nat) :
  (y < h)%nat -> (x < w)%nat ->
  at3 (convert_image_dtype
         (map (fun y => map (fun x => map Byte.to_N (bands RGB (px x y))) (seq 0 w))
              (seq 0 h))) y x c
  = nth c (map normalize (bands RGB (px x y))) 0.
Proof.
  intros Hy Hx. unfold at3, convert_image_dtype.
  rewrite !map_map. rewrite (nth_map_seq _ h y) by assumption.
  rewrite !map_map. rewrite (nth_map_seq _ w x) by assumption.
  rewrite map_map. reflexivity.
Qed.

Lemma compute_lerp_same (a xl yl : Q) : compute_lerp a a a a xl yl == a.
Proof. unfold compute_lerp. ring. Qed.

Lemma rgb_array_dims (image : Image) (px : nat -> nat -> pixel (im_mode image)) :
  (0 < im_width image)%nat -> (0 < im_height image)%nat ->
  List.length (convert_image_dtype (rgb_array image px)) = im_height image
  /\ List.length (hd [] (convert_image_dtype (rgb_array image px))) = im_width image
  /\ List.length (hd [] (hd [] (convert_image_dtype (rgb_array image px)))) = 3%nat.
Proof.
  intros Hw Hh. unfold convert_image_dtype, rgb_array.
  split; [now rewrite !length_map, length_seq|].
  destruct (im_height image) as [|h]; [lia|].
  destruct (im_width image) as [|w]; [lia|].
  cbn [seq map hd List.length].
  split; [now rewrite !length_map, length_seq|].
  destruct (to_rgb (im_mode image) (im_palette image) (px 0%nat 0%nat))
    as [[r g] b]. reflexivity.
Qed.

(** The resized tensor, entry by entry. *)
Lemma process_image_entries (pil : Pillow) (content : list byte) (image : Image)
      (px : nat -> nat -> pixel (im_mode image)) :
  Image_open pil content = Ok image -> im_load image = Ok px ->
  (0 < im_width image)%nat -> (0 < im_height image)%nat ->
  process_image_from_bytes pil content
  = Ok (map (fun y =>
          let ys := compute_interpolation_weights y (im_height image) IMG_SIZE in
          map (fun x =>
            let xs := compute_interpolation_weights x (im_width image) IMG_SIZE in
            map (fun c =>
              compute_lerp
                (at3 (convert_image_dtype (rgb_array image px)) (lower ys) (lower xs) c)
                (at3 (convert_image_dtype (rgb_array image px)) (lower ys) (upper xs) c)
                (at3 (convert_image_dtype (rgb_array image px)) (upper ys) (lower xs) c)
                (at3 (convert_image_dtype (rgb_array image px)) (upper ys) (upper xs) c)
                (lerp xs) (lerp ys))
              (seq 0 3))
            (seq 0 IMG_SIZE))
          (seq 0 IMG_SIZE)).
Proof.
  intros Hopen Hload Hw Hh.
  destruct (rgb_array_dims image px Hw Hh) as (H1 & H2 & H3).
  unfold process_image_from_bytes. rewrite Hopen. cbn [rbind].
  rewrite (convert_then_array image px _ Hload).
  unfold tf_image_resize. rewrite H1, H2, H3.
  assert (E1 : (im_height image =? 0)%nat = false) by (apply Nat.eqb_neq; lia).
  assert (E2 : (im_width image =? 0)%nat = false) by (apply Nat.eqb_neq; lia).
  now rewrite E1, E2.
Qed.

Lemma at3_rgb_array (image : Image) (px : nat -> nat -> pixel (im_mode image))
      (y x c : nat) :
  (y < im_height image)%nat -> (x < im_width image)%nat ->
  at3 (convert_image_dtype (rgb_array image px)) y x c
  = nth c (map normalize
               (bands RGB (to_rgb (im_mode image) (im_palette image) (px x y)))) 0.
Proof.
  intros Hy Hx. unfold rgb_array.
  exact (at3_normalized (im_width image) (im_height image)
           (fun x y => to_rgb (im_mode image) (im_palette image) (px x y))
           y x c Hy Hx).
Qed.

(** X19.  An image all of whose pixels have one colour, of any mode and any
    size of at least 1 x 1, is preprocessed to the 224 x 224 x 3 tensor
    that holds that colour's three channel values divided by 255 at every
    position: resizing a solid image introduces no other value. *)
Theorem uniform_image_gives_uniform_tensor
        (pil : Pillow) (content : list byte) (image : Image)
        (px : nat -> nat -> pixel (im_mode image)) (r g b : byte) :
  Image_open pil content = Ok image -> im_load image = Ok px ->
  (0 < im_width image)%nat -> (0 < im_height image)%nat ->
  (forall x y, (x < im_width image)%nat -> (y < im_height image)%nat ->
               to_rgb (im_mode image) (im_palette image) (px x y) = (r, g, b)) ->
  exists t,
    process_image_from_bytes pil content = Ok t
    /\ has_shape 224 224 3 t
    /\ Forall (Forall (fun p =>
                  Forall2 Qeq p [normalize r; normalize g; normalize b])) t.
Proof.
  intros Hopen Hload Hw Hh Hu.
  eexists. split; [exact (process_image_entries pil content image px Hopen Hload Hw Hh)|].
  split; [apply has_shape_tabulate|].
  apply Forall_map, Forall_forall. intros y Hy. apply in_seq in Hy.
  apply Forall_map, Forall_forall. intros x Hx. apply in_seq in Hx.
  cbv zeta.
  destruct (interpolation_indices_in_range y (im_height image) IMG_SIZE)
    as [Hyl Hyu]; [lia | assumption |].
  destruct (interpolation_indices_in_range x (im_width image) IMG_SIZE)
    as [Hxl Hxu]; [lia | assumption |].
  set (ys := compute_interpolation_weights y (im_height image) IMG_SIZE) in *.
  set (xs := compute_interpolation_weights x (im_width image) IMG_SIZE) in *.
  assert (Hat : forall y' x' c, (y' < im_height image)%nat -> (x' < im_width image)%nat ->
              at3 (convert_image_dtype (rgb_array image px)) y' x' c
              = nth c [normalize r; normalize g; normalize b] 0).
  { intros y' x' c Hy' Hx'. rewrite at3_rgb_array by assumption.
    now rewrite Hu by assumption. }
  cbn [seq map].
  rewrite !Hat by assumption. cbn [nth].
  repeat constructor; apply compute_lerp_same.
Qed.

Lemma uniform_image_gives_uniform_tensor_witness :
  exists t,
    process_image_from_bytes (solid_pillow 50 50 (xff, x00, x00)) [] = Ok t
    /\ has_shape 224 224 3 t
    /\ Forall (Forall (fun p =>
                  Forall2 Qeq p [normalize xff; normalize x00; normalize x00])) t.
Proof.
  apply (uniform_image_gives_uniform_tensor
           (solid_pillow 50 50 (xff, x00, x00)) []
           (mkImage RGB 50 50 (fun i => (i, i, i))
                    (Ok (fun _ _ => (xff, x00, x00))))
           (fun _ _ => (xff, x00, x00)) xff x00 x00);
    [reflexivity | reflexivity | cbn; lia | cbn; lia | reflexivity].
Defined.

Lemma scaler_same_size (i n : nat) :
  (0 < n)%nat -> scaler i n n == inject_Z (Z.of_nat i).
Proof.
  intros Hn. unfold scaler.
  assert (H : ~ inject_Z (Z.of_nat n) == 0).
  { intros E. assert (0 < inject_Z (Z.of_nat n)).
    { change 0 with (inject_Z 0). rewrite <- Zlt_Qlt. lia. }
    lra. }
  field. exact H.
Qed.

Lemma interpolation_same_size (i n : nat) :
  (i < n)%nat ->
  lower (compute_interpolation_weights i n n) = i
  /\ upper (compute_interpolation_weights i n n) = i.
Proof.
  intros Hi. unfold compute_interpolation_weights. cbn [lower upper].
  assert (Hs : scaler i n n == inject_Z (Z.of_nat i)) by (apply scaler_same_size; lia).
  rewrite (Qfloor_comp _ _ Hs), (Qceiling_comp _ _ Hs), Qfloor_Z, Qceiling_Z.
  split; lia.
Qed.

(** X20.  An image that is already 224 x 224 is not resampled: every entry
    of the result equals the corresponding channel value of the source
    pixel (after conversion to RGB) divided by 255. *)
Theorem image_of_target_size_is_not_resampled
        (pil : Pillow) (content : list byte) (image : Image)
        (px : nat -> nat -> pixel (im_mode image)) :
  Image_open pil content = Ok image -> im_load image = Ok px ->
  im_width image = 224%nat -> im_height image = 224%nat ->
  exists t,
    process_image_from_bytes pil content = Ok t
    /\ forall y x c, (y < 224)%nat -> (x < 224)%nat -> (c < 3)%nat ->
         at3 t y x c
         == nth c (map normalize
                       (bands RGB (to_rgb (im_mode image) (im_palette image) (px x y))))
                0.
Proof.
  intros Hopen Hload Hw Hh.
  eexists. split.
  - apply (process_image_entries pil content image px Hopen Hload); lia.
  - intros y x c Hy Hx Hc. unfold at3 at 1. unfold IMG_SIZE.
    rewrite (nth_map_seq _ 224 y) by exact Hy. cbv zeta.
    rewrite (nth_map_seq _ 224 x) by exact Hx.
    rewrite (nth_map_seq _ 3 c) by exact Hc.
    rewrite Hw, Hh.
    destruct (interpolation_same_size y 224 Hy) as [-> ->].
    destruct (interpolation_same_size x 224 Hx) as [-> ->].
    rewrite compute_lerp_same.
    rewrite at3_rgb_array by lia. reflexivity.
Qed.

Lemma image_of_target_size_is_not_resampled_witness :
  exists t,
    process_image_from_bytes (solid_pillow 224 224 (x80, x40, x20)) [] = Ok t
    /\ forall y x c, (y < 224)%nat -> (x < 224)%nat -> (c < 3)%nat ->
         at3 t y x c == nth c (map normalize (bands RGB (x80, x40, x20))) 0.
Proof.
  exact (image_of_target_size_is_not_resampled
           (solid_pillow 224 224 (x80, x40, x20)) []
           (mkImage RGB 224 224 (fun i => (i, i, i))
                    (Ok (fun _ _ => (x80, x40, x20))))
           (fun _ _ => (x80, x40, x20)) eq_refl eq_refl eq_refl eq_refl).
Defined.



Lemma process_file_path_as_bytes (tfio : TensorFlowIO) (path : string)
      (content : list byte) (d : DecodedJpeg) :
  tf_io_read_file tfio path = Ok content ->
  tf_image_decode_jpeg tfio content = Ok d ->
  process_image_from_file_path tfio path
  = process_image_from_bytes
      (mkPillow (fun _ => Ok (jpeg_as_image d)) (fun _ => Ok tt)) content.
Proof.
  intros Hr Hd. unfold process_image_from_file_path, process_image_from_bytes.
  rewrite Hr. cbn [rbind]. rewrite Hd. reflexivity.
Qed.

(** X22.  For every path whose file TensorFlow reads and decodes as a JPEG
    of at least 1 x 1 pixels, [process_image_from_file_path] returns a
    tensor of shape (224, 224, 3) with all values in [0, 1]. *)
Theorem file_path_pipeline_shape_and_range
        (tfio : TensorFlowIO) (path : string) (content : list byte)
        (d : DecodedJpeg) :
  tf_io_read_file tfio path = Ok content ->
  tf_image_decode_jpeg tfio content = Ok d ->
  (0 < jpeg_width d)%nat -> (0 < jpeg_height d)%nat ->
  exists t, process_image_from_file_path tfio path = Ok t
            /\ has_shape 224 224 3 t /\ in_unit_range t.
Proof.
  intros Hr Hd Hw Hh.
  rewrite (process_file_path_as_bytes tfio path content d Hr Hd).
  destruct (rgb_array_normalized (jpeg_as_image d) (jpeg_px d) Hw Hh)
    as (H1 & H2 & H3 & H4).
  destruct (tf_image_resize_spec _ IMG_SIZE IMG_SIZE H1 H2 H4) as (r & Hres & Hs & Hu).
  exists r. rewrite H3 in Hs. split; [exact Hres | now split].
Qed.

Lemma file_path_pipeline_shape_and_range_witness :
  exists t, process_image_from_file_path (solid_tfio 3 2 (x10, x20, x30)) "dog.jpg"
            = Ok t
            /\ has_shape 224 224 3 t /\ in_unit_range t.
Proof.
  apply (file_path_pipeline_shape_and_range
           (solid_tfio 3 2 (x10, x20, x30)) "dog.jpg" []
           (mkJpeg 2 3 (fun _ _ => (x10, x20, x30))));
    [reflexivity | reflexivity | cbn; lia | cbn; lia].
Defined.

Lemma rgb_array_ext (im1 im2 : Image)
      (px1 : nat -> nat -> pixel (im_mode im1))
      (px2 : nat -> nat -> pixel (im_mode im2)) :
  im_width im1 = im_width im2 -> im_height im1 = im_height im2 ->
  (forall x y, (x < im_width im1)%nat -> (y < im_height im1)%nat ->
               to_rgb (im_mode im1) (im_palette im1) (px1 x y)
               = to_rgb (im_mode im2) (im_palette im2) (px2 x y)) ->
  rgb_array im1 px1 = rgb_array im2 px2.
Proof.
  intros Hw Hh Hpx. unfold rgb_array. rewrite <- Hw, <- Hh.
  apply map_ext_in. intros y Hy. apply in_seq in Hy.
  apply map_ext_in. intros x Hx. apply in_seq in Hx.
  rewrite Hpx by lia. reflexivity.
Qed.

Lemma process_image_resize (pil : Pillow) (content : list byte) (image : Image)
      (px : nat -> nat -> pixel (im_mode image)) :
  Image_open pil content = Ok image -> im_load image = Ok px ->
  process_image_from_bytes pil content
  = tf_image_resize (convert_image_dtype (rgb_array image px)) IMG_SIZE IMG_SIZE.
Proof.
  intros Hopen Hload. unfold process_image_from_bytes. rewrite Hopen.
  cbn [rbind]. now rewrite (convert_then_array image px _ Hload).
Qed.

(** X23.  The upload pipeline and the file-path pipeline differ in the
    decoder only: when Pillow and TensorFlow decode the same bytes to images
    of the same size whose pixels agree after Pillow's conversion to RGB,
    [process_image_from_bytes] and [process_image_from_file_path] return the
    same tensor. *)
Theorem pipelines_agree
        (pil : Pillow) (tfio : TensorFlowIO) (path : string)
        (content : list byte) (image : Image)
        (px : nat -> nat -> pixel (im_mode image)) (d : DecodedJpeg) :
  tf_io_read_file tfio path = Ok content ->
  tf_image_decode_jpeg tfio content = Ok d ->
  Image_open pil content = Ok image -> im_load image = Ok px ->
  im_width image = jpeg_width d -> im_height image = jpeg_height d ->
  (forall x y, (x < jpeg_width d)%nat -> (y < jpeg_height d)%nat ->
               to_rgb (im_mode image) (im_palette image) (px x y) = jpeg_px d x y) ->
  process_image_from_bytes pil content = process_image_from_file_path tfio path.
Proof.
  intros Hr Hd Hopen Hload Hw Hh Hpx.
  rewrite (process_file_path_as_bytes tfio path content d Hr Hd).
  rewrite (process_image_resize pil content image px Hopen Hload).
  rewrite (process_image_resize
             (mkPillow (fun _ => Ok (jpeg_as_image d)) (fun _ => Ok tt))
             content (jpeg_as_image d) (jpeg_px d) eq_refl eq_refl).
  rewrite (rgb_array_ext image (jpeg_as_image d) px (jpeg_px d) Hw Hh);
    [reflexivity|].
  intros x y Hx Hy. cbn. apply Hpx; [now rewrite <- Hw | now rewrite <- Hh].
Qed.

Lemma pipelines_agree_witness :
  process_image_from_bytes (solid_pillow 3 2 (x10, x20, x30)) []
  = process_image_from_file_path (solid_tfio 3 2 (x10, x20, x30)) "dog.jpg".
Proof.
  apply (pipelines_agree
           (solid_pillow 3 2 (x10, x20, x30)) (solid_tfio 3 2 (x10, x20, x30))
           "dog.jpg" []
           (mkImage RGB 3 2 (fun i => (i, i, i)) (Ok (fun _ _ => (x10, x20, x30))))
           (fun _ _ => (x10, x20, x30))
           (mkJpeg 2 3 (fun _ _ => (x10, x20, x30))));
    reflexivity.
Defined.


Lemma missing_files_fold (h : Host) (files missing : list string) :
  (List.length
     (fold_left (fun missing file =>
                   if os_path_exists h file then missing
                   else (missing ++ [file])%list) files missing) =? 0)%nat
  = (List.length missing =? 0)%nat && forallb (os_path_exists h) files.
Proof.
  revert missing. induction files as [|f rest IH]; intros missing; cbn [fold_left forallb].
  - now rewrite andb_true_r.
  - rewrite IH. destruct (os_path_exists h f); cbn [andb]; [reflexivity|].
    rewrite length_app. cbn [List.length].
    replace (List.length missing + 1 =? 0)%nat with false
      by (symmetry; apply Nat.eqb_neq; lia).
    now rewrite andb_false_r.
Qed.

Lemma syntax_fold (h : Host) (files : list string) (all_valid : bool) :
  fold_left (fun all_valid file =>
               match rtry_except
                       (rbind (read_text h file) (fun content =>
                        rbind (compile h content file) (fun _ => Ok all_valid)))
                       (fun e => Ok false)
               with
               | Ok b => b
               | Raise _ => false
               end) files all_valid
  = all_valid && forallb (compiles h) files.
Proof.
  revert all_valid. induction files as [|f rest IH]; intros all_valid;
    cbn [fold_left forallb].
  - now rewrite andb_true_r.
  - rewrite IH. unfold compiles at 2.
    destruct (read_text h f) as [content|e]; cbn [rbind rtry_except andb].
    + destruct (compile h content f); cbn [rbind rtry_except is_ok andb].
      * reflexivity.
      * now rewrite andb_false_r.
    + now rewrite andb_false_r.
Qed.

Lemma imports_fold (h : Host) (packages : list string) :
  Forall (fun p => forall e, import_ h p <> RaisesOther e) packages ->
  fold_left (fun acc package =>
               rbind acc (fun _ =>
               match import_ h package with
               | Imported => Ok tt
               | RaisesImportError => Ok tt
               | RaisesOther e => Raise e
               end)) packages (Ok tt)
  = Ok tt.
Proof.
  induction 1 as [|p rest Hp _ IH]; cbn [fold_left rbind]; [reflexivity|].
  destruct (import_ h p) as [| |e]; [exact IH | exact IH |].
  now destruct (Hp e).
Qed.

(** X24.  When changing the directory, reading the model file's size and
    the imports raise nothing but [ImportError], the validation script
    exits with 0 exactly when the five required files and the model file
    exist and each of the three Python files can be read and compiled, and
    with 1 otherwise; packages that are not installed do not change the
    exit code. *)
Theorem validate_setup_exit_code (h : Host) :
  os_chdir h = Ok tt ->
  (os_path_exists h ValidateSetup.model_path = true ->
   is_ok (os_path_getsize h ValidateSetup.model_path) = true) ->
  Forall (fun p => forall e, import_ h p <> RaisesOther e) expected_packages ->
  main h
  = Ok (if forallb (os_path_exists h) required_files
           && os_path_exists h ValidateSetup.model_path
           && forallb (compiles h) python_files
        then 0%nat else 1%nat).
Proof.
  intros Hcd Hsize Himp. unfold main. rewrite Hcd. cbn [rbind].
  unfold check_imports. rewrite (imports_fold h expected_packages Himp).
  unfold check_file_structure, check_code_syntax.
  rewrite missing_files_fold, syntax_fold. cbn [List.length Nat.eqb andb].
  unfold check_model_file.
  destruct (os_path_exists h ValidateSetup.model_path) eqn:He.
  - specialize (Hsize eq_refl).
    destruct (os_path_getsize h ValidateSetup.model_path); [|discriminate].
    cbn [rbind].
    destruct (forallb (os_path_exists h) required_files),
             (forallb (compiles h) python_files); reflexivity.
  - cbn [rbind]. rewrite andb_false_r. reflexivity.
Qed.

Lemma validate_setup_exit_code_witness :
  main host_without_packages = Ok 0%nat.
Proof.
  rewrite (validate_setup_exit_code host_without_packages);
    [reflexivity | reflexivity | reflexivity |].
  repeat constructor; discriminate.
Defined.

(** ** The endpoints end to end *)

(** X25.  On a loaded service, an upload of a supported type and size that
    Pillow opens, verifies and decodes to an image of at least 1 x 1 pixels
    is answered 200 whenever the model answers the preprocessed image with a
    non-empty score vector: the body names the vocabulary entry at the
    argmax index (or the placeholder for an index out of range) and the
    maximum score rounded to four decimals. *)
Theorem upload_of_valid_image_succeeds
        (pil : Pillow) (set_order : list string)
        (svc : ModelService.t) (m : Model) (file : UploadFile)
        (content : list byte) (image : Image)
        (px : nat -> nat -> pixel (im_mode image))
        (v : list Q) (rest : list (list Q)) :
  is_loaded svc = true -> model svc = Some m ->
  in_supported_formats (content_type file) = true ->
  read file = Ok content ->
  (N.of_nat (List.length content) <= 10485760)%N ->
  Image_open pil content = Ok image ->
  Image_verify pil image = Ok tt ->
  im_load image = Ok px ->
  (0 < im_width image)%nat -> (0 < im_height image)%nat ->
  (forall t, process_image_from_bytes pil content = Ok t ->
             m [t] = Ok (v :: rest)) ->
  v <> [] ->
  exists i conf,
    is_argmax v i conf
    /\ predict_dog_breed pil set_order (Some svc) file
       = (Returned 200
            [("status", VStr "success");
             ("predicted_breed",
              VStr (if Nat.ltb i (List.length (dog_breeds svc))
                    then nth i (dog_breeds svc) ""
                    else "unknown_breed_" ++ str_of_nat i));
             ("confidence", VFloat (py_round conf 4));
             ("message", VStr "Prediction successful")],
          Some svc).
Proof.
  intros Hl Hm Hf Hr Hsize Hopen Hver Hload Hw Hh Hout Hv.
  assert (Hex : exists t, process_image_from_bytes pil content = Ok t).
  { eexists. exact (process_image_entries pil content image px Hopen Hload Hw Hh). }
  destruct Hex as [t Hp]. specialize (Hout t Hp).
  destruct (predict_body_scores m (dog_breeds svc) [t] v rest Hout Hv)
    as (i & conf & Harg & Hbody).
  exists i, conf. split; [exact Harg|].
  rewrite (predict_dog_breed_ready pil set_order svc file Hl Hf).
  unfold predict_try_block.
  rewrite Hr, (size_check_passes content Hsize).
  assert (Hval : validate_image_format pil content = Ok true).
  { unfold validate_image_format. rewrite Hopen. cbn [rbind]. now rewrite Hver. }
  rewrite Hval, Hp. unfold prepare_image_for_prediction.
  rewrite (predict_ready svc m [t] Hl Hm), Hbody. reflexivity.
Qed.

Lemma upload_of_valid_image_succeeds_witness :
  exists i conf,
    is_argmax [1#10; 7#10; 2#10] i conf
    /\ predict_dog_breed (solid_pillow 50 50 (xff, x00, x00)) SUPPORTED_FORMATS
         (Some (mkService "m.keras" (Some (stub_model [[1#10; 7#10; 2#10]]))
                          ["a"; "b"; "c"] true))
         (mkUpload (Some "image/jpeg") (Ok [xff; xd8; xff]))
       = (Returned 200
            [("status", VStr "success");
             ("predicted_breed",
              VStr (if Nat.ltb i 3 then nth i ["a"; "b"; "c"] ""
                    else "unknown_breed_" ++ str_of_nat i));
             ("confidence", VFloat (py_round conf 4));
             ("message", VStr "Prediction successful")],
          Some (mkService "m.keras" (Some (stub_model [[1#10; 7#10; 2#10]]))
                          ["a"; "b"; "c"] true)).
Proof.
  apply (upload_of_valid_image_succeeds
           (solid_pillow 50 50 (xff, x00, x00)) SUPPORTED_FORMATS
           (mkService "m.keras" (Some (stub_model [[1#10; 7#10; 2#10]]))
                      ["a"; "b"; "c"] true)
           (stub_model [[1#10; 7#10; 2#10]])
           (mkUpload (Some "image/jpeg") (Ok [xff; xd8; xff])) [xff; xd8; xff]
           (mkImage RGB 50 50 (fun i => (i, i, i)) (Ok (fun _ _ => (xff, x00, x00))))
           (fun _ _ => (xff, x00, x00)) [1#10; 7#10; 2#10] []);
    [reflexivity | reflexivity | reflexivity | reflexivity | cbn; lia
     | reflexivity | reflexivity | reflexivity | cbn; lia | cbn; lia
     | reflexivity | discriminate].
Defined.

(** X26.  The health endpoint is a reliable readiness probe for uploads:
    its [model_loaded] entry is false exactly when an upload sent in the
    same state would be answered 503, whatever the upload is. *)
Theorem health_flag_predicts_unavailability
        (pil : Pillow) (set_order : list string)
        (model_service : option ModelService.t) (file : UploadFile) :
  exists code body,
    health_check model_service = Returned code body
    /\ dict_get body "model_loaded" = Some (VBool (service_ready model_service))
    /\ (service_ready model_service = false <->
        status_of (fst (predict_dog_breed pil set_order model_service file))
        = Some 503%nat).
Proof.
  destruct model_service as [svc|].
  - exists 200%nat. eexists. split; [reflexivity|]. split; [reflexivity|].
    cbn [service_ready]. destruct (is_loaded svc) eqn:Hl.
    + split; [discriminate|]. intros H503. exfalso.
      destruct (in_supported_formats (content_type file)) eqn:Hf.
      * rewrite (predict_dog_breed_ready pil set_order svc file Hl Hf) in H503.
        cbn [fst] in H503.
        pose proof (predict_try_block_http_codes pil svc file) as Hcode.
        destruct (fst (predict_try_block pil svc file)) as [body|[code detail|e]];
          cbn in H503; try discriminate.
        specialize (Hcode code detail eq_refl). congruence.
      * rewrite (predict_dog_breed_unsupported pil set_order svc file Hl Hf) in H503.
        discriminate.
    + split; [|reflexivity]. intros _.
      now rewrite (predict_dog_breed_not_ready pil set_order (Some svc) file Hl).
  - exists 503%nat. eexists. split; [reflexivity|]. split; [reflexivity|].
    split; [|reflexivity]. intros _. reflexivity.
Qed.
